(** * Rust code generator for Concerto models: the visitor of
      [lib/codegen/fromcto/rust/rustvisitor.js]

    The development embeds the visitor as Rocq functions.  Strings are
    [String.string]; every character is one code point below 256, hence one
    element of [Array.from] and one UTF-16 code unit.  The output sink
    ([FileWriter] of concerto-util) is threaded as explicit state through a
    small state-and-error monad. *)

From Stdlib Require Import String Ascii List Bool Arith Lia Relations.
From Equations Require Import Equations.
Set Warnings "-register-all".
Import ListNotations.
Open Scope string_scope.

(** ** JavaScript string and array primitives used by the visitor *)

Module JS.

(** [String.prototype.includes]: substring search. *)
Fixpoint includes (s sub : string) : bool :=
  if String.prefix sub s then true
  else match s with
       | EmptyString => false
       | String _ s' => includes s' sub
       end.

(** [String.prototype.charAt]: a one-character string, or the empty string
    when the index is out of range. *)
Definition charAt (s : string) (i : nat) : string :=
  match String.get i s with
  | Some c => String c EmptyString
  | None => EmptyString
  end.

(** [Array.prototype.includes] on an array of strings. *)
Definition array_includes (a : list string) (x : string) : bool :=
  existsb (String.eqb x) a.

(** [Array.from(input, f).join('')]: [f] is applied to every character. *)
Fixpoint from_join (f : string -> string) (input : string) : string :=
  match input with
  | EmptyString => EmptyString
  | String c rest => f (String c EmptyString) ++ from_join f rest
  end.

Definition isUpper (c : ascii) : bool :=
  Nat.leb 65 (nat_of_ascii c) && Nat.leb (nat_of_ascii c) 90.

Definition lowerChar (c : ascii) : ascii :=
  if isUpper c then ascii_of_nat (nat_of_ascii c + 32) else c.

(** [String.prototype.toLowerCase] on the letters A-Z. *)
Fixpoint toLowerCase (s : string) : string :=
  match s with
  | EmptyString => EmptyString
  | String c rest => String (lowerChar c) (toLowerCase rest)
  end.

(** [s.replace(/[A-Z]/g, f)] where [f] receives the match and its offset in
    [s]; [offset] is the position of the first character of [s]. *)
Fixpoint replace_upper (f : string -> nat -> string) (offset : nat) (s : string)
  : string :=
  match s with
  | EmptyString => EmptyString
  | String c rest =>
      if isUpper c
      then f (String c EmptyString) offset ++ replace_upper f (S offset) rest
      else String c (replace_upper f (S offset) rest)
  end.

(** [s.replace(pat, rep)] with a one-character string pattern: only the
    first occurrence is replaced. *)
Fixpoint replace_first (pat : ascii) (rep : string) (s : string) : string :=
  match s with
  | EmptyString => EmptyString
  | String c rest =>
      if Ascii.eqb c pat then rep ++ rest
      else String c (replace_first pat rep rest)
  end.

(** [s.replace(/c/g, rep)] for a single literal character [c]. *)
Fixpoint replace_all (pat : ascii) (rep : string) (s : string) : string :=
  match s with
  | EmptyString => EmptyString
  | String c rest =>
      if Ascii.eqb c pat then rep ++ replace_all pat rep rest
      else String c (replace_all pat rep rest)
  end.

End JS.

(** ** Name sanitizer *)

(** Rust keywords *)
Definition keywords : list string :=
  [ "abstract"; "as"; "async"; "await"; "become"; "box"; "break"; "const";
    "continue"; "crate"; "do"; "dyn";
    "else"; "enum"; "extern"; "false"; "final"; "fn"; "for"; "if"; "impl";
    "in"; "let"; "loop"; "macro";
    "match"; "mod"; "move"; "mut"; "override"; "priv"; "pub"; "ref"; "return";
    "self"; "static"; "struct";
    "super"; "trait"; "true"; "try"; "type"; "typeof"; "unsafe"; "unsized";
    "use"; "virtual"; "where";
    "while"; "yield" ].

(** Valid characters for Rust names. *)
Definition validChars : string :=
  "abcdefghijklmnopqrstuvwxyzABCDEFGHIJKLMNOPQRSTUVWXYZ0123456789_".

Definition max_keyword_length : nat :=
  fold_right (fun k m => Nat.max (String.length k) m) 0 keywords.

Definition inspect {A} (a : A) : {b : A | a = b} := exist _ a eq_refl.

(** The loop [while (keywords.includes(result)) { result += '_'; }].  Every
    iteration lengthens [result], and no keyword is longer than
    [max_keyword_length], which bounds the number of iterations. *)
Equations? keyword_loop (result : string) : string
  by wf (S max_keyword_length - String.length result) lt :=
  keyword_loop result with inspect (JS.array_includes keywords result) => {
    | exist _ true Hkw => keyword_loop (result ++ "_");
    | exist _ false _ => result }.
Proof.
  assert (Hlen : forall ks, existsb (String.eqb result) ks = true ->
            String.length result
            <= fold_right (fun k m => Nat.max (String.length k) m) 0 ks).
  { induction ks as [|k ks IH]; simpl; [discriminate|].
    destruct (String.eqb_spec result k) as [->|_]; simpl; [lia|].
    intros H. specialize (IH H). lia. }
  change (existsb (String.eqb result) keywords = true) in Hkw.
  apply Hlen in Hkw. fold max_keyword_length in Hkw.
  change (S max_keyword_length - String.length (result ++ "_")
          < S max_keyword_length - String.length result).
  assert (Happ : String.length (result ++ "_") = S (String.length result)).
  { clear. induction result as [|c r IH]; simpl; [reflexivity | now rewrite IH]. }
  rewrite Happ. lia.
Qed.

(** Helper method: Convert any string into a valid Rust name. *)
Definition toValidRustName (input : string) : string :=
  (* Replace any invalid characters with an underscore. *)
  let result := JS.from_join (fun c => if JS.includes validChars c then c else "_") input in
  (* Convert the string to snake case. *)
  let result := JS.replace_upper (fun m offset =>
                    if Nat.eqb offset 0 then JS.toLowerCase m
                    else "_" ++ JS.toLowerCase m) 0 result in
  (* Add an underscore to the beginning if the first character is invalid. *)
  let result := if negb (JS.includes validChars (JS.charAt result 0))
                then "_" ++ result else result in
  keyword_loop result.

(** Helper method: Converts a Concerto namespace to a Rust crate name. *)
Definition toRustCrateName (namespace : string) : string :=
  JS.replace_all "." "_" (JS.replace_all "@" "_" namespace).


(** *** Character classes and the identifier pattern [[a-z_][a-z0-9_]*] *)

Definition is_lower (c : ascii) : bool :=
  Nat.leb 97 (nat_of_ascii c) && Nat.leb (nat_of_ascii c) 122.

Definition is_digit (c : ascii) : bool :=
  Nat.leb 48 (nat_of_ascii c) && Nat.leb (nat_of_ascii c) 57.

Definition is_underscore (c : ascii) : bool := Ascii.eqb c "_".

(** [[a-z0-9_]] *)
Definition snake_char (c : ascii) : bool :=
  is_lower c || is_digit c || is_underscore c.

(** [[a-zA-Z0-9_]] *)
Definition valid_char (c : ascii) : bool := snake_char c || JS.isUpper c.

Fixpoint string_forall (p : ascii -> bool) (s : string) : bool :=
  match s with
  | EmptyString => true
  | String c rest => p c && string_forall p rest
  end.

(** The anchored regular expression [^[a-z_][a-z0-9_]*$]. *)
Definition matches_ident (s : string) : bool :=
  match s with
  | EmptyString => false
  | String c rest => (is_lower c || is_underscore c) && string_forall snake_char rest
  end.

Fixpoint ends_with_underscore (s : string) : bool :=
  match s with
  | EmptyString => false
  | String c EmptyString => is_underscore c
  | String _ rest => ends_with_underscore rest
  end.

(** ** The output sink *)

(** [new Error(message)] *)
Inductive error : Type := Error (message : string).

(** One written line: the indentation level and the text. *)
Definition line : Type := (nat * string)%type.

(** Modelled from the spec: the [FileWriter] of concerto-util, an external
    collaborator.  [openFile] begins a named unit and fails if one is already
    open, [writeLine] appends one line to the open unit, [closeFile] seals it
    and fails if none is open. *)
Record FileWriter : Type := mkFileWriter {
  fileName : option string;
  buffer : list line;
  closed : list (string * list line)
}.

Inductive outcome (A : Type) : Type :=
| Threw (e : error)
| Returned (a : A) (fw : FileWriter).
Arguments Threw {A} e.
Arguments Returned {A} a fw.

(** Computations over the sink that may throw. *)
Definition M (A : Type) : Type := FileWriter -> outcome A.

Definition ret {A : Type} (a : A) : M A := fun fw => Returned a fw.

Definition bind {A B : Type} (m : M A) (k : A -> M B) : M B :=
  fun fw => match m fw with
            | Threw e => Threw e
            | Returned a fw' => k a fw'
            end.

Definition throw {A : Type} (e : error) : M A := fun _ => Threw e.

Notation "x <- m ;; k" := (bind m (fun x => k))
  (at level 61, m at next level, right associativity).
Notation "m ;; k" := (bind m (fun _ => k))
  (at level 61, right associativity).

Definition openFile (name : string) : M unit :=
  fun fw => match fileName fw with
            | Some _ => Threw (Error "File is already open")
            | None => Returned tt (mkFileWriter (Some name) [] (closed fw))
            end.

Definition writeLine (tabs : nat) (text : string) : M unit :=
  fun fw => match fileName fw with
            | Some _ =>
                Returned tt (mkFileWriter (fileName fw) (buffer fw ++ [(tabs, text)]) (closed fw))
            | None => Threw (Error "File has not been opened!")
            end.

Definition closeFile : M unit :=
  fun fw => match fileName fw with
            | Some name =>
                Returned tt (mkFileWriter None [] (closed fw ++ [(name, buffer fw)]))
            | None => Threw (Error "No file open")
            end.

(** [array.forEach(f)] *)
Definition forEach {A : Type} (f : A -> M unit) : list A -> M unit :=
  fix go (l : list A) : M unit :=
    match l with
    | [] => ret tt
    | x :: rest => f x ;; go rest
    end.

(** ** The declaration graph *)

(** A field object.  [isArray] and [isOptional] are [None] when the object has
    no such method, as for the literal [{ name: '$class', type: 'String' }]. *)
Record Field : Type := mkField {
  name : string;
  type : string;
  isArray : option bool;
  isOptional : option bool
}.

(** The value of [obj.method?.()] taken as a condition. *)
Definition truthy (b : option bool) : bool :=
  match b with
  | Some true => true
  | _ => false
  end.

(** The objects handed to the visitor.  A [FieldNode] carries the result of
    [getScalarField()] when its type is a scalar declaration; [Other] is any
    value that answers none of the capability predicates, with its [typeof]
    and its [util.inspect] text. *)
Inductive thing : Type :=
| ModelManager (namespaces : list string) (modelFiles : list thing)
| ModelFile (namespace : string) (imports : list string) (declarations : list thing)
| EnumDeclaration (declName : string) (ownProperties : list thing)
| ClassDeclaration (declName : string) (properties : list thing)
| FieldNode (field : Field) (scalarField : option Field)
| RelationshipNode (relationship : Field)
| ScalarDeclaration (declName : string)
| EnumValueNode (valueName : string)
| Other (typeof inspect : string).

Definition isModelManager (t : thing) : bool :=
  match t with ModelManager _ _ => true | _ => false end.
Definition isModelFile (t : thing) : bool :=
  match t with ModelFile _ _ _ => true | _ => false end.
Definition isEnum (t : thing) : bool :=
  match t with EnumDeclaration _ _ => true | _ => false end.
Definition isClassDeclaration (t : thing) : bool :=
  match t with ClassDeclaration _ _ => true | _ => false end.
Definition isTypeScalar (t : thing) : bool :=
  match t with FieldNode _ (Some _) => true | _ => false end.
Definition isField (t : thing) : bool :=
  match t with FieldNode _ _ => true | _ => false end.
Definition isRelationship (t : thing) : bool :=
  match t with RelationshipNode _ => true | _ => false end.
Definition isScalarDeclaration (t : thing) : bool :=
  match t with ScalarDeclaration _ => true | _ => false end.
Definition isEnumValue (t : thing) : bool :=
  match t with EnumValueNode _ => true | _ => false end.

(** [property.name]; [None] is [undefined]. *)
Definition thing_name (t : thing) : option string :=
  match t with
  | FieldNode f _ => Some (name f)
  | RelationshipNode r => Some (name r)
  | EnumDeclaration n _ | ClassDeclaration n _ | ScalarDeclaration n
  | EnumValueNode n => Some n
  | _ => None
  end.

(** ** The visitor *)

(** The double quote character. *)
Definition dq : string := String (ascii_of_nat 34) EmptyString.

Definition toRustType (ty : string) : string :=
  if String.eqb ty "DateTime" then "DateTime<Utc>"
  else if String.eqb ty "Boolean" then "bool"
  else if String.eqb ty "Long" then "u64"
  else if String.eqb ty "Double" then "f64"
  else ty.

Definition isDateField (ty : string) : bool := String.eqb ty "DateTime".

Definition visitField (field : Field) : M unit :=
  let ty := toRustType (type field) in
  let ty := if truthy (isArray field) then "Vec<" ++ ty ++ ">" else ty in
  writeLine 1 "#[serde(" ;;
  writeLine 2 ("rename = " ++ dq ++ name field ++ dq ++ ",") ;;
  ty <- (if truthy (isOptional field)
         then writeLine 2 ("skip_serializing_if = " ++ dq ++ "Option::is_none" ++ dq ++ ",") ;;
              ret ("Option<" ++ ty ++ ">")
         else ret ty) ;;
  (if isDateField (type field)
   then if truthy (isOptional field)
        then writeLine 2 ("serialize_with = " ++ dq ++ "serialize_datetime_option" ++ dq ++ ",") ;;
             writeLine 2 ("deserialize_with = " ++ dq ++ "deserialize_datetime_option" ++ dq ++ ",")
        else writeLine 2 ("serialize_with = " ++ dq ++ "serialize_datetime" ++ dq ++ ",") ;;
             writeLine 2 ("deserialize_with = " ++ dq ++ "deserialize_datetime" ++ dq ++ ",")
   else ret tt) ;;
  writeLine 1 ")]" ;;
  writeLine 1 ("pub " ++ toValidRustName (JS.replace_first "$" EmptyString (name field))
                 ++ ": " ++ ty ++ ",").

Definition visitRelationshipDeclaration (relationshipDeclaration : Field) : M unit :=
  let ty := type relationshipDeclaration in
  let ty := if truthy (isArray relationshipDeclaration) then "Vec<" ++ ty ++ ">" else ty in
  let ty := if truthy (isOptional relationshipDeclaration) then "Option<" ++ ty ++ ">" else ty in
  writeLine 1 ("#[serde(rename = " ++ dq ++ name relationshipDeclaration ++ dq ++ ")]") ;;
  writeLine 1 ("pub " ++ toValidRustName (JS.replace_first "$" EmptyString (name relationshipDeclaration))
                 ++ ": " ++ ty ++ ",").

Definition visitScalarDeclaration (declName : string) : M unit :=
  writeLine 0 ("scalarDeclaration - " ++ declName).

Definition visitEnumValueDeclaration (valueName : string) : M unit :=
  writeLine 1 (valueName ++ ",").

Definition newline : string := String (ascii_of_nat 10) EmptyString.

Definition visitEnumDeclaration (accept : thing -> M unit)
    (declName : string) (ownProperties : list thing) : M unit :=
  writeLine 0 "#[derive(Debug, Serialize, Deserialize)]" ;;
  writeLine 0 ("pub enum " ++ declName ++ " {") ;;
  forEach accept ownProperties ;;
  writeLine 0 ("}" ++ newline).

(** [!['identifier'].includes(property.name)] *)
Definition not_identifier (property : thing) : bool :=
  match thing_name property with
  | Some n => negb (JS.array_includes ["identifier"] n)
  | None => true
  end.

Definition visitClassDeclaration (accept : thing -> M unit)
    (declName : string) (properties : list thing) : M unit :=
  writeLine 0 "#[derive(Debug, Serialize, Deserialize)]" ;;
  writeLine 0 ("pub struct " ++ declName ++ " {") ;;
  visitField (mkField "$class" "String" None None) ;;
  let properties := filter not_identifier properties in
  forEach (fun property => writeLine 1 EmptyString ;; accept property) properties ;;
  writeLine 0 "}" ;;
  writeLine 0 EmptyString.

Definition addUtilsModelFile : M unit :=
  openFile "utils.rs" ;;
  writeLine 0 "use chrono::{ DateTime, TimeZone, Utc };" ;;
  writeLine 0 "use serde::{ Deserialize, Serialize, Deserializer, Serializer };" ;;
  writeLine 1 EmptyString ;;
  writeLine 0 "pub fn serialize_datetime_option<S>(datetime: &Option<chrono::DateTime<Utc>>, serializer: S) -> Result<S::Ok, S::Error>" ;;
  writeLine 0 "where" ;;
  writeLine 1 "S: Serializer," ;;
  writeLine 0 "{" ;;
  writeLine 1 "match datetime {" ;;
  writeLine 2 "Some(dt) => {" ;;
  writeLine 3 "serialize_datetime(&dt, serializer)" ;;
  writeLine 2 "}," ;;
  writeLine 2 "_ => unreachable!()," ;;
  writeLine 1 "}" ;;
  writeLine 0 "}" ;;
  writeLine 0 EmptyString ;;
  writeLine 0 "pub fn deserialize_datetime_option<'de, D>(deserializer: D) -> Result<Option<chrono::DateTime<Utc>>, D::Error>" ;;
  writeLine 0 "where" ;;
  writeLine 1 "D: Deserializer<'de>," ;;
  writeLine 0 "{" ;;
  writeLine 1 "match deserialize_datetime(deserializer) {" ;;
  writeLine 2 "Ok(result)=>Ok(Some(result))," ;;
  writeLine 2 "Err(error) => Err(error)," ;;
  writeLine 1 "}" ;;
  writeLine 0 "}" ;;
  writeLine 0 EmptyString ;;
  writeLine 0 "pub fn deserialize_datetime<'de, D>(deserializer: D) -> Result<chrono::DateTime<Utc>, D::Error>" ;;
  writeLine 0 "where" ;;
  writeLine 1 "D: Deserializer<'de>," ;;
  writeLine 0 "{" ;;
  writeLine 1 "let datetime_str = String::deserialize(deserializer)?;" ;;
  writeLine 1 ("Utc.datetime_from_str(&datetime_str, " ++ dq ++ "%Y-%m-%dT%H:%M:%S%.3fZ" ++ dq
                 ++ ").map_err(serde::de::Error::custom)") ;;
  writeLine 0 "}" ;;
  writeLine 1 EmptyString ;;
  writeLine 0 "pub fn serialize_datetime<S>(datetime: &chrono::DateTime<Utc>, serializer: S) -> Result<S::Ok, S::Error>" ;;
  writeLine 0 "where" ;;
  writeLine 1 "S: Serializer," ;;
  writeLine 0 "{" ;;
  writeLine 1 ("let datetime_str = datetime.format(" ++ dq ++ "%Y-%m-%dT%H:%M:%S%.3fZ" ++ dq
                 ++ ").to_string();") ;;
  writeLine 1 "serializer.serialize_str(&datetime_str)" ;;
  writeLine 0 "}" ;;
  closeFile.

(** [a.filter((v, i, a) => a.indexOf(v) === i)]: the first occurrence of
    every element is kept. *)
Fixpoint first_occurrences (seen : list string) (a : list string) : list string :=
  match a with
  | [] => []
  | v :: rest =>
      if JS.array_includes seen v then first_occurrences seen rest
      else v :: first_occurrences (v :: seen) rest
  end.

Section Visitor.

(** [ModelUtil.getNamespace] of concerto-core: the namespace of a fully
    qualified name. *)
Variable getNamespace : string -> string.

Definition visitModelManager (accept : thing -> M unit)
    (namespaces : list string) (modelFiles : list thing) : M unit :=
  (* Create the "lib.rs" file containing the module references. *)
  openFile "lib.rs" ;;
  forEach (fun namespace =>
             let namespaceFileName := toValidRustName namespace in
             writeLine 0 ("pub mod " ++ namespaceFileName ++ ";")) namespaces ;;
  writeLine 0 "pub mod utils;" ;;
  closeFile ;;
  addUtilsModelFile ;;
  (* Create the files for each namespace. *)
  forEach accept modelFiles.

Definition visitModelFile (accept : thing -> M unit)
    (namespace : string) (imports : list string) (declarations : list thing) : M unit :=
  (* Create the file for the namespace with a valid Rust name. *)
  let fileName := toValidRustName namespace in
  openFile (fileName ++ ".rs") ;;
  writeLine 0 "use serde::{ Deserialize, Serialize };" ;;
  writeLine 0 "use chrono::{ DateTime, TimeZone, Utc };" ;;
  writeLine 1 EmptyString ;;
  (* Add imports. *)
  forEach (fun ns => writeLine 0 ("use crate::" ++ toValidRustName ns ++ "::*;"))
    (first_occurrences []
       (filter (fun ns => negb (String.eqb ns namespace)) (map getNamespace imports))) ;;
  writeLine 0 "use crate::utils::*;" ;;
  writeLine 1 EmptyString ;;
  forEach accept declarations ;;
  closeFile.

(** [visitClassDeclaration] with the walk over [properties.filter(...)]
    written as one loop, the shape under which the recursion of [visit] is
    structural; [visitClassDeclaration_fused_eq] shows the two are the same. *)
Definition visitClassDeclaration_fused (accept : thing -> M unit)
    (declName : string) (properties : list thing) : M unit :=
  writeLine 0 "#[derive(Debug, Serialize, Deserialize)]" ;;
  writeLine 0 ("pub struct " ++ declName ++ " {") ;;
  visitField (mkField "$class" "String" None None) ;;
  (fix go (l : list thing) : M unit :=
     match l with
     | [] => ret tt
     | property :: rest =>
         if not_identifier property
         then (writeLine 1 EmptyString ;; accept property) ;; go rest
         else go rest
     end) properties ;;
  writeLine 0 "}" ;;
  writeLine 0 EmptyString.

(** The dispatcher.  [x.accept(visitor, parameters)] of the declaration graph
    calls back [visitor.visit(x, parameters)]. *)
Fixpoint visit (t : thing) : M unit :=
  match t with
  | ModelManager namespaces modelFiles => visitModelManager visit namespaces modelFiles
  | ModelFile namespace imports declarations =>
      visitModelFile visit namespace imports declarations
  | EnumDeclaration declName ownProperties => visitEnumDeclaration visit declName ownProperties
  | ClassDeclaration declName properties =>
      visitClassDeclaration_fused visit declName properties
  | FieldNode _ (Some scalarField) => visitField scalarField
  | FieldNode field None => visitField field
  | RelationshipNode relationship => visitRelationshipDeclaration relationship
  | ScalarDeclaration declName => visitScalarDeclaration declName
  | EnumValueNode valueName => visitEnumValueDeclaration valueName
  | Other typeof inspect =>
      throw (Error ("Unrecognised type: " ++ typeof ++ ", value: " ++ inspect))
  end.

End Visitor.

(** ** Recursion detection *)

(** Modelled from the spec: [RecursionDetectionVisitor] of
    [./recursionvisitor], which is not among the sources at hand.  The
    detector walks the graph whose nodes are the class declarations and whose
    edges are the properties with a class type, depth first, keeping the
    stack of the declarations on the current path.  A type already on the
    stack reports [true] only if it is the declaration the walk started
    from. *)
Module RecursionDetection.

(** The class declarations of a model: each class name with the type names
    of its properties, in declaration order. *)
Definition classGraph : Type := list (string * list string).

(** The properties of the class declaration a type name resolves to, if it
    resolves to one. *)
Fixpoint resolve (g : classGraph) (ty : string) : option (list string) :=
  match g with
  | [] => None
  | (c, props) :: rest => if String.eqb ty c then Some props else resolve rest ty
  end.

(** The visit of one class node.  [fuel] bounds the depth of the walk. *)
Fixpoint visitClassDeclaration (g : classGraph) (fuel : nat) (origin : string)
    (stack : list string) (decl : string) : bool :=
  match fuel with
  | 0 => false
  | S fuel' =>
      let stack := decl :: stack in
      match resolve g decl with
      | None => false
      | Some props =>
          existsb (fun ty =>
                     match resolve g ty with
                     | None => false
                     | Some _ =>
                         if JS.array_includes stack ty then String.eqb ty origin
                         else visitClassDeclaration g fuel' origin stack ty
                     end) props
      end
  end.

(** An edge of the graph: [a] declares a property whose type is the class
    [b]. *)
Definition edge (g : classGraph) (a b : string) : Prop :=
  exists props, resolve g a = Some props /\ In b props /\ resolve g b <> None.

(** A walk from [a] to [b] through the intermediate nodes [via]. *)
Fixpoint walk (g : classGraph) (a : string) (via : list string) (b : string) : Prop :=
  match via with
  | [] => edge g a b
  | t :: rest => edge g a t /\ walk g t rest b
  end.

End RecursionDetection.

(** Returns true if the class declaration contains recursive references.  The
    walk starts with the empty stack; a path never holds more nodes than the
    model has classes, which is the depth allowed. *)
Definition isModelRecursive (g : RecursionDetection.classGraph)
    (classDeclaration : string) : bool :=
  RecursionDetection.visitClassDeclaration g (S (List.length g))
    classDeclaration [] classDeclaration.

(** ** What a visit appends to the open unit *)

(** [emits m ls]: run with a unit open, [m] returns normally, having appended
    the lines [ls] to that unit and changed nothing else. *)
Definition emits (m : M unit) (ls : list line) : Prop :=
  forall fw file, fileName fw = Some file ->
    m fw = Returned tt (mkFileWriter (Some file) (buffer fw ++ ls) (closed fw)).

(** The type expression [visitField] ends up with. *)
Definition fieldType (field : Field) : string :=
  let ty := toRustType (type field) in
  let ty := if truthy (isArray field) then "Vec<" ++ ty ++ ">" else ty in
  if truthy (isOptional field) then "Option<" ++ ty ++ ">" else ty.

(** The lines [visitField] writes between the rename line and the closing
    of the attribute. *)
Definition fieldAttributes (field : Field) : list line :=
  (if truthy (isOptional field)
   then [(2, "skip_serializing_if = " ++ dq ++ "Option::is_none" ++ dq ++ ",")]
   else [])
  ++ (if isDateField (type field)
      then if truthy (isOptional field)
           then [(2, "serialize_with = " ++ dq ++ "serialize_datetime_option" ++ dq ++ ",");
                 (2, "deserialize_with = " ++ dq ++ "deserialize_datetime_option" ++ dq ++ ",")]
           else [(2, "serialize_with = " ++ dq ++ "serialize_datetime" ++ dq ++ ",");
                 (2, "deserialize_with = " ++ dq ++ "deserialize_datetime" ++ dq ++ ",")]
      else []).

Definition fieldLines (field : Field) : list line :=
  [(1, "#[serde("); (2, "rename = " ++ dq ++ name field ++ dq ++ ",")]
  ++ fieldAttributes field
  ++ [(1, ")]");
      (1, "pub " ++ toValidRustName (JS.replace_first "$" EmptyString (name field))
            ++ ": " ++ fieldType field ++ ",")].

Definition relationshipType (r : Field) : string :=
  let ty := type r in
  let ty := if truthy (isArray r) then "Vec<" ++ ty ++ ">" else ty in
  if truthy (isOptional r) then "Option<" ++ ty ++ ">" else ty.

Definition relationshipLines (r : Field) : list line :=
  [(1, "#[serde(rename = " ++ dq ++ name r ++ dq ++ ")]");
   (1, "pub " ++ toValidRustName (JS.replace_first "$" EmptyString (name r))
         ++ ": " ++ relationshipType r ++ ",")].

(** The lines of the member a field or relationship property contributes. *)
Definition memberLines (property : thing) : list line :=
  match property with
  | FieldNode _ (Some scalarField) => fieldLines scalarField
  | FieldNode field None => fieldLines field
  | RelationshipNode r => relationshipLines r
  | _ => []
  end.

Definition isMember (property : thing) : bool :=
  isField property || isRelationship property.

(** The lines of the discriminator member. *)
Definition discriminatorLines : list line :=
  [(1, "#[serde("); (2, "rename = " ++ dq ++ "$class" ++ dq ++ ",");
   (1, ")]"); (1, "pub class: String,")].

(** The content of [utils.rs]. *)
Definition utilsLines : list line :=
  match addUtilsModelFile (mkFileWriter None [] []) with
  | Returned _ fw => match closed fw with
                     | [(_, ls)] => ls
                     | _ => []
                     end
  | Threw _ => []
  end.

Fixpoint map_chars (f : ascii -> ascii) (s : string) : string :=
  match s with
  | EmptyString => EmptyString
  | String c rest => String (f c) (map_chars f rest)
  end.

(** The lines of the manifest [lib.rs]. *)
Definition manifestLines (namespaces : list string) : list line :=
  map (fun namespace => (0, "pub mod " ++ toValidRustName namespace ++ ";")) namespaces
  ++ [(0, "pub mod utils;")].

(** ** The emitters the dispatcher does not reach *)

Definition visitAssetDeclaration (accept : thing -> M unit)
    (declName : string) (ownProperties : list thing) : M unit :=
  writeLine 0 ("pub struct " ++ declName ++ " {") ;;
  forEach accept ownProperties ;;
  writeLine 0 "}" ;;
  writeLine 0 EmptyString.

Definition visitTransactionDeclaration (accept : thing -> M unit)
    (declName : string) (ownProperties : list thing) : M unit :=
  writeLine 0 ("transactionDeclaration - " ++ declName) ;;
  forEach accept ownProperties.

Definition visitConceptDeclaration (declName : string) : M unit :=
  writeLine 0 ("conceptDeclaration - " ++ declName).

(** ** Decorators *)

(** A JavaScript object used as a map from property names to values: the own
    properties in insertion order.  An assignment to an existing property
    keeps its place. *)
Definition object (A : Type) : Type := list (string * A).

(** [o[k] = v] *)
Fixpoint object_set {A : Type} (o : object A) (k : string) (v : A) : object A :=
  match o with
  | [] => [(k, v)]
  | (k', v') :: rest =>
      if String.eqb k' k then (k, v) :: rest else (k', v') :: object_set rest k v
  end.


Section Decorators.

(** The values of decorator arguments. *)
Variable literal : Type.

Record Decorator : Type := mkDecorator {
  getName : string;
  getArguments : list literal
}.

(** Gets an object with all the decorators for a model element.  The argument
    is the value of [decorated.getDecorators()], [None] when it is [null] or
    [undefined]; the result [None] is [null]. *)
Definition getDecorators (decorators : option (list Decorator))
  : option (object (list literal)) :=
  match decorators with
  | Some ds =>
      if Nat.ltb 0 (List.length ds)
      then Some (fold_left (fun acc d => object_set acc (getName d) (getArguments d)) ds [])
      else None
  | None => None
  end.

End Decorators.

Arguments getName {literal} d.
Arguments getArguments {literal} d.
Arguments mkDecorator {literal} getName getArguments.
Arguments getDecorators {literal} decorators.

(** ** The earlier revision of the visitor *)

(** The second class of the source file.  It reads the same declaration
    graph; the property list of a [ClassDeclaration] stands here for
    [getOwnProperties()].  [toValidRustName] is the same function. *)
Module Legacy.

Definition visitField (field : Field) : M unit :=
  writeLine 1 ("#[serde(rename = " ++ dq ++ name field ++ dq ++ ")]") ;;
  writeLine 1 ("pub " ++ toValidRustName (name field) ++ " : " ++ type field ++ ",").

Definition visitRelationship (relationship : Field) : M unit :=
  writeLine 1 ("#[serde(rename = " ++ dq ++ name relationship ++ dq) ;;
  writeLine 1 ("pub " ++ name relationship ++ " : " ++ type relationship ++ ",").

Definition visitEnumValueDeclaration (valueName : string) : M unit :=
  writeLine 1 ("enumValueDeclaration - " ++ valueName).

Definition visitEnumDeclaration (accept : thing -> M unit)
    (declName : string) (ownProperties : list thing) : M unit :=
  writeLine 0 ("enumDeclaration - " ++ declName ++ " - ") ;;
  writeLine 0 "property - " ;;
  forEach accept ownProperties ;;
  writeLine 0 " - ".

Definition visitClassDeclaration (accept : thing -> M unit)
    (declName : string) (ownProperties : list thing) : M unit :=
  writeLine 0 "#[derive(Debug, Serialize, Deserialize)]" ;;
  writeLine 0 ("pub struct " ++ declName ++ "{ ") ;;
  forEach accept ownProperties ;;
  writeLine 0 "}" ;;
  writeLine 0 EmptyString.

Section Visitor.

Variable getNamespace : string -> string.

Definition visitModelManager (accept : thing -> M unit)
    (namespaces : list string) (modelFiles : list thing) : M unit :=
  openFile "lib.rs" ;;
  forEach (fun namespace =>
             let namespaceFileName := toValidRustName namespace in
             writeLine 0 ("pub mod " ++ namespaceFileName ++ ";")) namespaces ;;
  closeFile ;;
  forEach accept modelFiles.

Definition visitModelFile (accept : thing -> M unit)
    (namespace : string) (imports : list string) (declarations : list thing) : M unit :=
  let fileName := toValidRustName namespace in
  openFile (fileName ++ ".rs") ;;
  writeLine 0 "use serde::{Deserialize, Serialize};" ;;
  forEach (fun ns => writeLine 0 ("use crate::" ++ toValidRustName ns ++ "::*;"))
    (first_occurrences []
       (filter (fun ns => negb (String.eqb ns namespace)) (map getNamespace imports))) ;;
  writeLine 1 EmptyString ;;
  forEach accept declarations ;;
  closeFile.

(** The dispatcher.  The class has no method [visitScalarField], so the call
    made for a field whose type is a scalar throws a [TypeError]; a scalar
    declaration returns at once. *)
Fixpoint visit (t : thing) : M unit :=
  match t with
  | ModelManager namespaces modelFiles => visitModelManager visit namespaces modelFiles
  | ModelFile namespace imports declarations =>
      visitModelFile visit namespace imports declarations
  | EnumDeclaration declName ownProperties => visitEnumDeclaration visit declName ownProperties
  | ClassDeclaration declName ownProperties =>
      visitClassDeclaration visit declName ownProperties
  | FieldNode _ (Some _) => throw (Error "this.visitScalarField is not a function")
  | FieldNode field None => visitField field
  | RelationshipNode relationship => visitRelationship relationship
  | EnumValueNode valueName => visitEnumValueDeclaration valueName
  | ScalarDeclaration _ => ret tt
  | Other typeof inspect =>
      throw (Error ("Unrecognised type: " ++ typeof ++ ", value: " ++ inspect))
  end.

End Visitor.

End Legacy.

(** ** What a visit writes: whole units *)

(** [closes m ls]: run with a unit open, [m] appends the lines [ls] and
    closes the unit. *)
Definition closes (m : M unit) (ls : list line) : Prop :=
  forall fw file, fileName fw = Some file ->
    m fw = Returned tt (mkFileWriter None [] (closed fw ++ [(file, (buffer fw ++ ls)%list)])).

(** [writes m units]: run with no unit open and nothing buffered, [m] adds
    the finished units [units] and leaves the sink in such a state again. *)
Definition writes (m : M unit) (units : list (string * list line)) : Prop :=
  forall fw, fileName fw = None -> buffer fw = [] ->
    m fw = Returned tt (mkFileWriter None [] (closed fw ++ units)).

(** [throws m e]: run with a unit open, [m] throws [e]. *)
Definition throws (m : M unit) (e : error) : Prop :=
  forall fw file, fileName fw = Some file -> m fw = Threw e.

(** [aborts m e]: run with no unit open and nothing buffered, [m] throws
    [e]. *)
Definition aborts (m : M unit) (e : error) : Prop :=
  forall fw, fileName fw = None -> buffer fw = [] -> m fw = Threw e.

(** The lines the earlier revision writes for a field or a relationship. *)
Definition legacyMemberLines (property : thing) : list line :=
  match property with
  | FieldNode field None =>
      [(1, "#[serde(rename = " ++ dq ++ name field ++ dq ++ ")]");
       (1, "pub " ++ toValidRustName (name field) ++ " : " ++ type field ++ ",")]
  | RelationshipNode r =>
      [(1, "#[serde(rename = " ++ dq ++ name r ++ dq);
       (1, "pub " ++ name r ++ " : " ++ type r ++ ",")]
  | _ => []
  end.

(** A field whose type is no scalar, or a relationship. *)
Definition isPlainMember (property : thing) : bool :=
  isMember property && negb (isTypeScalar property).

Definition enumValueLines (property : thing) : list line :=
  match property with
  | EnumValueNode valueName => [(1, valueName ++ ",")]
  | _ => []
  end.

Definition enumLines (declName : string) (ownProperties : list thing) : list line :=
  [(0, "#[derive(Debug, Serialize, Deserialize)]");
   (0, "pub enum " ++ declName ++ " {")]
  ++ flat_map enumValueLines ownProperties
  ++ [(0, "}" ++ newline)].

Definition classLines (declName : string) (properties : list thing) : list line :=
  [(0, "#[derive(Debug, Serialize, Deserialize)]");
   (0, "pub struct " ++ declName ++ " {")]
  ++ discriminatorLines
  ++ flat_map (fun p => (1, EmptyString) :: memberLines p)
       (filter not_identifier properties)
  ++ [(0, "}"); (0, EmptyString)].

(** A declaration of a model file as the model manager hands it out: a class
    of fields and relationships, an enumeration of values or a scalar. *)
Definition isWellFormedDeclaration (declaration : thing) : bool :=
  match declaration with
  | ClassDeclaration _ properties => forallb isMember properties
  | EnumDeclaration _ ownProperties => forallb isEnumValue ownProperties
  | ScalarDeclaration _ => true
  | _ => false
  end.

Definition declarationLines (declaration : thing) : list line :=
  match declaration with
  | ClassDeclaration declName properties => classLines declName properties
  | EnumDeclaration declName ownProperties => enumLines declName ownProperties
  | ScalarDeclaration declName => [(0, "scalarDeclaration - " ++ declName)]
  | _ => []
  end.

Definition isWellFormedModelFile (modelFile : thing) : bool :=
  match modelFile with
  | ModelFile _ _ declarations => forallb isWellFormedDeclaration declarations
  | _ => false
  end.

Section Units.

Variable getNamespace : string -> string.

(** The namespaces a model file writes an import line for. *)
Definition importedNamespaces (namespace : string) (imports : list string) : list string :=
  first_occurrences []
    (filter (fun ns => negb (String.eqb ns namespace)) (map getNamespace imports)).

Definition modelFileLines (namespace : string) (imports : list string)
    (declarations : list thing) : list line :=
  [(0, "use serde::{ Deserialize, Serialize };");
   (0, "use chrono::{ DateTime, TimeZone, Utc };");
   (1, EmptyString)]
  ++ map (fun ns => (0, "use crate::" ++ toValidRustName ns ++ "::*;"))
       (importedNamespaces namespace imports)
  ++ [(0, "use crate::utils::*;"); (1, EmptyString)]
  ++ flat_map declarationLines declarations.

(** The unit written for a model file. *)
Definition modelFileUnit (modelFile : thing) : string * list line :=
  match modelFile with
  | ModelFile namespace imports declarations =>
      (toValidRustName namespace ++ ".rs", modelFileLines namespace imports declarations)
  | _ => (EmptyString, [])
  end.

End Units.

(** ** Properties of the sanitizer *)

Section Sanitizer.

Lemma array_includes_In (a : list string) (x : string) :
  JS.array_includes a x = true <-> In x a.
Proof.
  unfold JS.array_includes. rewrite existsb_exists. split.
  - intros [k [Hin Heq]]. apply String.eqb_eq in Heq. now subst.
  - intros Hin. exists x. split; [assumption | apply String.eqb_refl].
Qed.

Ltac all_ascii c :=
  destruct c as [[] [] [] [] [] [] [] []]; vm_compute; try reflexivity; try discriminate.

Lemma includes_validChars (c : ascii) :
  JS.includes validChars (String c EmptyString) = valid_char c.
Proof. all_ascii c. Qed.

Lemma upper_lowers_to_snake (c : ascii) :
  JS.isUpper c = true -> snake_char (JS.lowerChar c) = true.
Proof. all_ascii c. Qed.

Lemma valid_not_upper_snake (c : ascii) :
  valid_char c = true -> JS.isUpper c = false -> snake_char c = true.
Proof. unfold valid_char. intros H Hu. rewrite Hu, orb_false_r in H. exact H. Qed.

Lemma snake_not_upper (c : ascii) : snake_char c = true -> JS.isUpper c = false.
Proof. all_ascii c. Qed.

Lemma snake_valid (c : ascii) : snake_char c = true -> valid_char c = true.
Proof. unfold valid_char. intros ->. reflexivity. Qed.

Lemma string_forall_app (p : ascii -> bool) (s t : string) :
  string_forall p (s ++ t) = string_forall p s && string_forall p t.
Proof.
  induction s as [|c s IH]; simpl; [reflexivity|].
  now rewrite IH, andb_assoc.
Qed.

(** Step 1 leaves only characters of [validChars]. *)
Lemma step1_valid (input : string) :
  string_forall valid_char
    (JS.from_join (fun c => if JS.includes validChars c then c else "_") input) = true.
Proof.
  induction input as [|c rest IH]; [reflexivity|].
  cbn [JS.from_join]. rewrite includes_validChars.
  destruct (valid_char c) eqn:Hc; cbn [append string_forall]; rewrite ?Hc, IH; reflexivity.
Qed.

(** Step 2 leaves only characters of [[a-z0-9_]]. *)
Lemma step2_snake (s : string) (offset : nat) :
  string_forall valid_char s = true ->
  string_forall snake_char
    (JS.replace_upper (fun m off => if Nat.eqb off 0 then JS.toLowerCase m
                                    else "_" ++ JS.toLowerCase m) offset s) = true.
Proof.
  revert offset. induction s as [|c rest IH]; intros offset H; simpl in *; [reflexivity|].
  apply andb_true_iff in H as [Hc Hrest].
  destruct (JS.isUpper c) eqn:Hu.
  - destruct (Nat.eqb offset 0); simpl;
      rewrite (upper_lowers_to_snake c Hu), (IH _ Hrest); reflexivity.
  - simpl. rewrite (valid_not_upper_snake c Hc Hu), (IH _ Hrest). reflexivity.
Qed.

(** Step 3 never fires on such a string: a first character in [[a-z0-9_]] is
    found in [validChars], and so is the empty string that [charAt(0)] gives
    for an empty [result]. *)
Lemma step3_identity (r : string) :
  string_forall snake_char r = true ->
  (if negb (JS.includes validChars (JS.charAt r 0)) then "_" ++ r else r) = r.
Proof.
  destruct r as [|c rest]; [reflexivity|].
  cbn [string_forall]. intros H. apply andb_true_iff in H as [Hc _].
  change (JS.charAt (String c rest) 0) with (String c EmptyString).
  now rewrite includes_validChars, (snake_valid c Hc).
Qed.

Lemma keyword_loop_step (r : string) :
  keyword_loop r =
  if JS.array_includes keywords r then keyword_loop (r ++ "_") else r.
Proof.
  rewrite keyword_loop_equation_1. unfold inspect.
  generalize (@eq_refl bool (JS.array_includes keywords r)).
  generalize (JS.array_includes keywords r) at 2 4 5.
  intros [] e; reflexivity.
Qed.

Lemma ends_with_underscore_app (r : string) :
  ends_with_underscore (r ++ "_") = true.
Proof.
  induction r as [|c r IH]; [reflexivity|].
  cbn [append ends_with_underscore]. rewrite IH.
  destruct (r ++ "_") eqn:E; [destruct r; discriminate | reflexivity].
Qed.

Lemma keywords_no_trailing_underscore (k : string) :
  In k keywords -> ends_with_underscore k = false.
Proof.
  assert (H : forallb (fun k => negb (ends_with_underscore k)) keywords = true)
    by reflexivity.
  rewrite forallb_forall in H. intros Hin. apply H in Hin.
  now apply negb_true_iff in Hin.
Qed.

Lemma underscore_suffix_not_keyword (r : string) :
  JS.array_includes keywords (r ++ "_") = false.
Proof.
  destruct (JS.array_includes keywords (r ++ "_")) eqn:E; [|reflexivity].
  apply array_includes_In, keywords_no_trailing_underscore in E.
  rewrite ends_with_underscore_app in E. discriminate.
Qed.

(** The loop runs at most once: no keyword ends with an underscore. *)
Lemma keyword_loop_result (r : string) :
  keyword_loop r = if JS.array_includes keywords r then r ++ "_" else r.
Proof.
  rewrite keyword_loop_step. destruct (JS.array_includes keywords r); [|reflexivity].
  now rewrite keyword_loop_step, underscore_suffix_not_keyword.
Qed.

Lemma keyword_loop_not_keyword (r : string) :
  JS.array_includes keywords (keyword_loop r) = false.
Proof.
  rewrite keyword_loop_result.
  destruct (JS.array_includes keywords r) eqn:E;
    [apply underscore_suffix_not_keyword | exact E].
Qed.

Lemma keyword_loop_snake (r : string) :
  string_forall snake_char r = true ->
  string_forall snake_char (keyword_loop r) = true.
Proof.
  intros H. rewrite keyword_loop_result.
  destruct (JS.array_includes keywords r); [|exact H].
  now rewrite string_forall_app, H.
Qed.

(** What the sanitizer does guarantee: only characters of [[a-z0-9_]]. *)
Lemma toValidRustName_snake (input : string) :
  string_forall snake_char (toValidRustName input) = true.
Proof.
  unfold toValidRustName. cbv zeta.
  pose proof (step2_snake _ 0 (step1_valid input)) as H2.
  rewrite (step3_identity _ H2). now apply keyword_loop_snake.
Qed.

(** The guard of step 3 holds for no input: the underscore is never
    prepended. *)
Lemma prepend_guard_never_fires (input : string) :
  toValidRustName input
  = keyword_loop
      (JS.replace_upper (fun m offset => if Nat.eqb offset 0 then JS.toLowerCase m
                                         else "_" ++ JS.toLowerCase m) 0
         (JS.from_join (fun c => if JS.includes validChars c then c else "_") input)).
Proof.
  unfold toValidRustName. cbv zeta.
  now rewrite (step3_identity _ (step2_snake _ 0 (step1_valid input))).
Qed.

(** What the sanitizer does guarantee: never a keyword. *)
Lemma toValidRustName_not_keyword (input : string) :
  JS.array_includes keywords (toValidRustName input) = false.
Proof. unfold toValidRustName. cbv zeta. apply keyword_loop_not_keyword. Qed.

Lemma step1_identity (r : string) :
  string_forall valid_char r = true ->
  JS.from_join (fun c => if JS.includes validChars c then c else "_") r = r.
Proof.
  induction r as [|c r IH]; [reflexivity|].
  cbn [string_forall JS.from_join]. intros H. apply andb_true_iff in H as [Hc Hr].
  now rewrite includes_validChars, Hc, (IH Hr).
Qed.

Lemma step2_identity (f : string -> nat -> string) (r : string) (offset : nat) :
  string_forall snake_char r = true -> JS.replace_upper f offset r = r.
Proof.
  revert offset. induction r as [|c r IH]; intros offset H; [reflexivity|].
  cbn [string_forall JS.replace_upper] in *. apply andb_true_iff in H as [Hc Hr].
  now rewrite (snake_not_upper c Hc), (IH _ Hr).
Qed.

Lemma string_forall_impl (p q : ascii -> bool) (s : string) :
  (forall c, p c = true -> q c = true) ->
  string_forall p s = true -> string_forall q s = true.
Proof.
  intros Hpq. induction s as [|c s IH]; [reflexivity|].
  cbn [string_forall]. intros H. apply andb_true_iff in H as [Hc Hs].
  now rewrite (Hpq c Hc), (IH Hs).
Qed.

(** A string over [[a-z0-9_]] that is no keyword is left as it is. *)
Lemma toValidRustName_fixed (r : string) :
  string_forall snake_char r = true ->
  JS.array_includes keywords r = false ->
  toValidRustName r = r.
Proof.
  intros Hs Hk. unfold toValidRustName. cbv zeta.
  rewrite (step1_identity r (string_forall_impl _ _ r snake_valid Hs)).
  rewrite (step2_identity _ r 0 Hs), (step3_identity r Hs).
  now rewrite keyword_loop_result, Hk.
Qed.

End Sanitizer.

(** C7: the name sanitizer is idempotent: applying [toValidRustName] to its
    own result gives that result again, for every input string. *)
Theorem toValidRustName_idempotent (x : string) :
  toValidRustName (toValidRustName x) = toValidRustName x.
Proof.
  apply toValidRustName_fixed.
  - apply toValidRustName_snake.
  - apply toValidRustName_not_keyword.
Qed.

(** C3: the sanitizer is meant to return a name matching [[a-z_][a-z0-9_]*].
    On the empty string and on a string starting with a digit the check of
    the first character lets the input through: the empty string stays empty
    (no underscore is prepended) and ["1abc"] stays ["1abc"], neither of
    which matches the pattern. *)
Theorem toValidRustName_invalid_start :
  toValidRustName EmptyString = EmptyString
  /\ matches_ident (toValidRustName EmptyString) = false
  /\ toValidRustName "1abc" = "1abc"
  /\ matches_ident (toValidRustName "1abc") = false
  /\ JS.includes validChars (JS.charAt EmptyString 0) = true
  /\ JS.includes validChars (JS.charAt "1abc" 0) = true.
Proof. repeat split; reflexivity. Qed.

(** ** Properties of the emitters *)

Section Emitters.

Lemma append_assoc (s t u : string) : (s ++ t) ++ u = s ++ t ++ u.
Proof. induction s as [|c s IH]; simpl; [reflexivity | now rewrite IH]. Qed.

Lemma emits_ret : emits (ret tt) [].
Proof. intros [fn buf cl] file H. simpl in H. subst. unfold ret. now rewrite app_nil_r. Qed.

Lemma emits_writeLine (tabs : nat) (text : string) :
  emits (writeLine tabs text) [(tabs, text)].
Proof. intros [fn buf cl] file H. simpl in H. subst. reflexivity. Qed.

Lemma emits_bind (m k : M unit) (l1 l2 : list line) :
  emits m l1 -> emits k l2 -> emits (m ;; k) (l1 ++ l2).
Proof.
  intros Hm Hk fw file H. unfold bind. rewrite (Hm fw file H).
  rewrite (Hk (mkFileWriter (Some file) (buffer fw ++ l1) (closed fw)) file eq_refl).
  cbn [buffer closed]. now rewrite app_assoc.
Qed.

Lemma emits_forEach {A : Type} (f : A -> M unit) (g : A -> list line) (l : list A) :
  (forall x, In x l -> emits (f x) (g x)) ->
  emits (forEach f l) (flat_map g l).
Proof.
  induction l as [|x l IH]; intros H.
  - apply emits_ret.
  - cbn [forEach flat_map]. apply emits_bind.
    + apply H. now left.
    + apply IH. intros y Hy. apply H. now right.
Qed.

Lemma emits_forEach_writeLine {A : Type} (tabs : nat) (h : A -> string) (l : list A) :
  emits (forEach (fun x => writeLine tabs (h x)) l) (map (fun x => (tabs, h x)) l).
Proof.
  induction l as [|x l IH]; [apply emits_ret|].
  cbn [forEach map]. apply (emits_bind _ _ [_] _ (emits_writeLine _ _) IH).
Qed.

Lemma addUtilsModelFile_run (fw : FileWriter) :
  fileName fw = None ->
  addUtilsModelFile fw
  = Returned tt (mkFileWriter None [] (closed fw ++ [("utils.rs", utilsLines)])).
Proof. destruct fw as [fn buf cl]. simpl. intros ->. reflexivity. Qed.

Lemma toRustCrateName_chars (namespace : string) :
  toRustCrateName namespace
  = map_chars (fun c => if Ascii.eqb c "@" || Ascii.eqb c "." then "_"%char else c)
      namespace.
Proof.
  unfold toRustCrateName. induction namespace as [|c ns IH]; [reflexivity|].
  cbn [map_chars JS.replace_all]. destruct (Ascii.eqb c "@") eqn:Eat.
  - cbn [append JS.replace_all]. now rewrite IH.
  - cbn [JS.replace_all orb]. destruct (Ascii.eqb c "."); cbn [append]; now rewrite IH.
Qed.

Lemma visitField_emits (field : Field) : emits (visitField field) (fieldLines field).
Proof.
  intros [fn buf cl] file H. simpl in H. subst.
  unfold visitField, fieldLines, fieldAttributes, fieldType.
  destruct (truthy (isArray field)), (truthy (isOptional field)),
    (isDateField (type field));
    cbv [bind writeLine ret fileName buffer closed];
    repeat rewrite <- app_assoc; reflexivity.
Qed.

Lemma visitRelationshipDeclaration_emits (r : Field) :
  emits (visitRelationshipDeclaration r) (relationshipLines r).
Proof.
  intros [fn buf cl] file H. simpl in H. subst.
  unfold visitRelationshipDeclaration, relationshipLines, relationshipType.
  cbv [bind writeLine ret fileName buffer closed].
  repeat rewrite <- app_assoc. reflexivity.
Qed.

Lemma discriminator_emits :
  emits (visitField (mkField "$class" "String" None None)) discriminatorLines.
Proof. exact (visitField_emits (mkField "$class" "String" None None)). Qed.

Variable getNamespace : string -> string.

Lemma visit_member_emits (property : thing) :
  isMember property = true ->
  emits (visit getNamespace property) (memberLines property).
Proof.
  destruct property as [| | | |f [g|]|r| | |]; try discriminate; intros _; simpl.
  - apply visitField_emits.
  - apply visitField_emits.
  - apply visitRelationshipDeclaration_emits.
Qed.

Lemma fused_loop_eq (accept : thing -> M unit) (properties : list thing) :
  (fix go (l : list thing) : M unit :=
     match l with
     | [] => ret tt
     | property :: rest =>
         if not_identifier property
         then (writeLine 1 EmptyString ;; accept property) ;; go rest
         else go rest
     end) properties
  = forEach (fun property => writeLine 1 EmptyString ;; accept property)
      (filter not_identifier properties).
Proof.
  induction properties as [|p ps IH]; [reflexivity|].
  cbn [filter]. destruct (not_identifier p); [|exact IH].
  cbn [forEach]. now rewrite IH.
Qed.

(** The dispatcher runs [visitClassDeclaration] on a class declaration. *)
Lemma visitClassDeclaration_fused_eq (accept : thing -> M unit)
    (declName : string) (properties : list thing) :
  visitClassDeclaration_fused accept declName properties
  = visitClassDeclaration accept declName properties.
Proof.
  unfold visitClassDeclaration_fused, visitClassDeclaration.
  now rewrite fused_loop_eq.
Qed.

Lemma visit_ClassDeclaration (declName : string) (properties : list thing) :
  visit getNamespace (ClassDeclaration declName properties)
  = visitClassDeclaration (visit getNamespace) declName properties.
Proof. apply visitClassDeclaration_fused_eq. Qed.

Lemma visitClassDeclaration_emits (accept : thing -> M unit)
    (declName : string) (properties : list thing) :
  (forall p, In p (filter not_identifier properties) -> emits (accept p) (memberLines p)) ->
  emits (visitClassDeclaration accept declName properties)
    ([(0, "#[derive(Debug, Serialize, Deserialize)]");
      (0, "pub struct " ++ declName ++ " {")]
     ++ discriminatorLines
     ++ flat_map (fun p => (1, EmptyString) :: memberLines p)
          (filter not_identifier properties)
     ++ [(0, "}"); (0, EmptyString)]).
Proof.
  intros H. unfold visitClassDeclaration.
  apply (emits_bind _ _ [_] _ (emits_writeLine _ _)).
  apply (emits_bind _ _ [_] _ (emits_writeLine _ _)).
  apply (emits_bind _ _ _ _ discriminator_emits).
  apply emits_bind.
  - apply emits_forEach. intros p Hp.
    apply (emits_bind _ _ [_] _ (emits_writeLine _ _)). now apply H.
  - apply (emits_bind _ _ [_] [_] (emits_writeLine _ _)). apply emits_writeLine.
Qed.

Lemma not_identifier_spec (p : thing) :
  not_identifier p = true <-> thing_name p <> Some "identifier".
Proof.
  unfold not_identifier. destruct (thing_name p) as [n|]; [|split; [discriminate|reflexivity]].
  unfold JS.array_includes. cbn [existsb]. rewrite orb_false_r, negb_true_iff.
  rewrite String.eqb_neq. split; [congruence|]. intros H E. apply H. now f_equal.
Qed.

End Emitters.

(** ** The class record, its members and the dispatcher *)

Section Claims.

Variable getNamespace : string -> string.

(** C1: a class declaration whose properties are fields and relationships is
    emitted as the two header lines, then the discriminator member (rename
    [$class], type [String], no skip-if-none line), then, after a blank line
    each, the member of every property not named [identifier], in declaration
    order, then the two closing lines.  Exactly the properties named
    [identifier] are left out. *)
Theorem class_record_layout (declName : string) (properties : list thing)
    (fw : FileWriter) (file : string) :
  fileName fw = Some file ->
  forallb isMember properties = true ->
  visit getNamespace (ClassDeclaration declName properties) fw
  = Returned tt
      (mkFileWriter (Some file)
         (buffer fw
          ++ [(0, "#[derive(Debug, Serialize, Deserialize)]");
              (0, "pub struct " ++ declName ++ " {")]
          ++ [(1, "#[serde("); (2, "rename = " ++ dq ++ "$class" ++ dq ++ ",");
              (1, ")]"); (1, "pub class: String,")]
          ++ flat_map (fun p => (1, EmptyString) :: memberLines p)
               (filter not_identifier properties)
          ++ [(0, "}"); (0, EmptyString)])
         (closed fw))
  /\ (forall p, In p (filter not_identifier properties)
                <-> In p properties /\ thing_name p <> Some "identifier").
Proof.
  intros Hopen Hmem. split.
  - rewrite visit_ClassDeclaration.
    apply (visitClassDeclaration_emits (visit getNamespace) declName properties);
      [|exact Hopen].
    intros p Hp. apply visit_member_emits.
    apply filter_In in Hp as [Hp _].
    rewrite forallb_forall in Hmem. now apply Hmem.
  - intros p. rewrite filter_In, not_identifier_spec. reflexivity.
Qed.

(** C2: for a field that is both an array and optional, the type written is
    [Option<Vec<Base>>]: the array is wrapped first, the option around it;
    it is not [Vec<Option<Base>>]. *)
Theorem optional_array_wrapping (field : Field) (fw : FileWriter) (file : string) :
  fileName fw = Some file ->
  isArray field = Some true ->
  isOptional field = Some true ->
  visitField field fw
  = Returned tt
      (mkFileWriter (Some file)
         (buffer fw
          ++ [(1, "#[serde("); (2, "rename = " ++ dq ++ name field ++ dq ++ ",")]
          ++ fieldAttributes field
          ++ [(1, ")]");
              (1, "pub " ++ toValidRustName (JS.replace_first "$" EmptyString (name field))
                    ++ ": " ++ ("Option<Vec<" ++ toRustType (type field) ++ ">>") ++ ",")])
         (closed fw))
  /\ "Option<Vec<" ++ toRustType (type field) ++ ">>"
     <> "Vec<Option<" ++ toRustType (type field) ++ ">>".
Proof.
  intros Hopen Harr Hopt. split; [|discriminate].
  rewrite (visitField_emits field fw file Hopen).
  unfold fieldLines, fieldType. rewrite Harr, Hopt. cbn [truthy].
  now rewrite (append_assoc "Vec<" (toRustType (type field) ++ ">") ">"),
    (append_assoc (toRustType (type field)) ">" ">").
Qed.

(** The same order of wrapping holds for a relationship. *)
Lemma optional_array_relationship (r : Field) :
  isArray r = Some true -> isOptional r = Some true ->
  relationshipType r = "Option<Vec<" ++ type r ++ ">>".
Proof.
  intros Ha Ho. unfold relationshipType. rewrite Ha, Ho. cbn [truthy].
  now rewrite (append_assoc "Vec<" (type r ++ ">") ">"), (append_assoc (type r) ">" ">").
Qed.

(** C6: a [DateTime] field that is optional carries the skip-if-none line
    and the hooks [serialize_datetime_option] and
    [deserialize_datetime_option]; one that is not optional carries the
    hooks [serialize_datetime] and [deserialize_datetime] and no skip-if-none
    line. *)
Theorem datetime_hooks (field : Field) (fw : FileWriter) (file : string) :
  fileName fw = Some file ->
  type field = "DateTime" ->
  visitField field fw
  = Returned tt
      (mkFileWriter (Some file)
         (buffer fw
          ++ (if truthy (isOptional field)
              then [(1, "#[serde(");
                    (2, "rename = " ++ dq ++ name field ++ dq ++ ",");
                    (2, "skip_serializing_if = " ++ dq ++ "Option::is_none" ++ dq ++ ",");
                    (2, "serialize_with = " ++ dq ++ "serialize_datetime_option" ++ dq ++ ",");
                    (2, "deserialize_with = " ++ dq ++ "deserialize_datetime_option" ++ dq ++ ",");
                    (1, ")]");
                    (1, "pub " ++ toValidRustName (JS.replace_first "$" EmptyString (name field))
                          ++ ": " ++ "Option<"
                          ++ (if truthy (isArray field) then "Vec<DateTime<Utc>>"
                              else "DateTime<Utc>") ++ ">" ++ ",")]
              else [(1, "#[serde(");
                    (2, "rename = " ++ dq ++ name field ++ dq ++ ",");
                    (2, "serialize_with = " ++ dq ++ "serialize_datetime" ++ dq ++ ",");
                    (2, "deserialize_with = " ++ dq ++ "deserialize_datetime" ++ dq ++ ",");
                    (1, ")]");
                    (1, "pub " ++ toValidRustName (JS.replace_first "$" EmptyString (name field))
                          ++ ": "
                          ++ (if truthy (isArray field) then "Vec<DateTime<Utc>>"
                              else "DateTime<Utc>") ++ ",")]))
         (closed fw)).
Proof.
  intros Hopen Hty.
  rewrite (visitField_emits field fw file Hopen).
  unfold fieldLines, fieldAttributes, fieldType. rewrite Hty.
  destruct (truthy (isOptional field)), (truthy (isArray field)); reflexivity.
Qed.

(** C8, as the code has it: visiting a scalar declaration defines no type,
    but it does write to the open unit: the one line
    [scalarDeclaration - <name>] at indentation 0 is appended, and nothing
    else changes. *)
Theorem scalar_declaration_writes_placeholder (declName : string)
    (fw : FileWriter) (file : string) :
  fileName fw = Some file ->
  visit getNamespace (ScalarDeclaration declName) fw
  = Returned tt
      (mkFileWriter (Some file)
         (buffer fw ++ [(0, "scalarDeclaration - " ++ declName)])
         (closed fw)).
Proof. intros Hopen. exact (emits_writeLine _ _ fw file Hopen). Qed.

(** C9: a node that answers none of the nine capability predicates makes the
    dispatcher throw, whatever the state of the sink; the message ends with
    the inspection text of the node.  Nothing is emitted: a throw leaves no
    resulting sink. *)
Theorem unrecognised_node_throws (t : thing) (fw : FileWriter) :
  isModelManager t = false -> isModelFile t = false -> isEnum t = false ->
  isClassDeclaration t = false -> isTypeScalar t = false -> isField t = false ->
  isRelationship t = false -> isScalarDeclaration t = false ->
  isEnumValue t = false ->
  exists typeof inspect,
    t = Other typeof inspect
    /\ visit getNamespace t fw
       = Threw (Error ("Unrecognised type: " ++ typeof ++ ", value: " ++ inspect)).
Proof.
  destruct t; try discriminate. intros _ _ _ _ _ _ _ _ _.
  eexists _, _. split; reflexivity.
Qed.

(** C10: the member written for a field or a relationship is named by the
    sanitizer applied to the declared name without its first [$], and the
    rename annotation carries the declared name as it is.  The discriminator
    [$class] becomes the member [class] renamed ["$class"].  Only the first
    [$] is removed; the sanitizer turns a later one into [_]. *)
Theorem member_identifier_and_rename (f : Field) (fw : FileWriter) (file : string) :
  fileName fw = Some file ->
  visitField f fw
  = Returned tt
      (mkFileWriter (Some file)
         (buffer fw
          ++ [(1, "#[serde("); (2, "rename = " ++ dq ++ name f ++ dq ++ ",")]
          ++ fieldAttributes f
          ++ [(1, ")]");
              (1, "pub " ++ toValidRustName (JS.replace_first "$" EmptyString (name f))
                    ++ ": " ++ fieldType f ++ ",")])
         (closed fw))
  /\ visitRelationshipDeclaration f fw
     = Returned tt
         (mkFileWriter (Some file)
            (buffer fw
             ++ [(1, "#[serde(rename = " ++ dq ++ name f ++ dq ++ ")]");
                 (1, "pub " ++ toValidRustName (JS.replace_first "$" EmptyString (name f))
                       ++ ": " ++ relationshipType f ++ ",")])
            (closed fw))
  /\ visitField (mkField "$class" "String" None None) fw
     = Returned tt
         (mkFileWriter (Some file)
            (buffer fw
             ++ [(1, "#[serde("); (2, "rename = " ++ dq ++ "$class" ++ dq ++ ",");
                 (1, ")]"); (1, "pub class: String,")])
            (closed fw))
  /\ (forall pre post,
        string_forall (fun c => negb (Ascii.eqb c "$")) pre = true ->
        JS.replace_first "$" EmptyString (pre ++ String "$" post) = pre ++ post)
  /\ JS.replace_first "$" EmptyString "$a$b" = "a$b"
  /\ toValidRustName "a$b" = "a_b".
Proof.
  intros Hopen. repeat split.
  - exact (visitField_emits f fw file Hopen).
  - exact (visitRelationshipDeclaration_emits f fw file Hopen).
  - exact (discriminator_emits fw file Hopen).
  - intros pre post. induction pre as [|c pre IH]; [reflexivity|].
    cbn [string_forall append JS.replace_first]. intros H.
    apply andb_true_iff in H as [Hc Hpre]. apply negb_true_iff in Hc.
    now rewrite Hc, (IH Hpre).
Qed.

(** C4, as the code has it: [toRustCrateName] replaces every [@] and every
    [.] with [_] and changes nothing else, but no emitter calls it.  The
    module lines of the manifest [lib.rs] ([manifestLines]: one line
    [pub mod <toValidRustName namespace>;] per namespace, then
    [pub mod utils;]) and the file name of every namespace unit are made
    with the member-name sanitizer [toValidRustName]. *)
Theorem namespace_identifiers (namespaces : list string) (modelFiles : list thing)
    (namespace : string) (imports : list string) (declarations : list thing)
    (fw : FileWriter) :
  fileName fw = None ->
  toRustCrateName namespace
  = map_chars (fun c => if Ascii.eqb c "@" || Ascii.eqb c "." then "_"%char else c)
      namespace
  /\ visit getNamespace (ModelManager namespaces modelFiles) fw
     = forEach (visit getNamespace) modelFiles
         (mkFileWriter None []
            (closed fw
             ++ [("lib.rs", manifestLines namespaces); ("utils.rs", utilsLines)]))
  /\ visit getNamespace (ModelFile namespace imports declarations) fw
     = (forEach (visit getNamespace) declarations ;; closeFile)
         (mkFileWriter (Some (toValidRustName namespace ++ ".rs"))
            ([(0, "use serde::{ Deserialize, Serialize };");
              (0, "use chrono::{ DateTime, TimeZone, Utc };");
              (1, EmptyString)]
             ++ map (fun ns => (0, "use crate::" ++ toValidRustName ns ++ "::*;"))
                  (first_occurrences []
                     (filter (fun ns => negb (String.eqb ns namespace))
                        (map getNamespace imports)))
             ++ [(0, "use crate::utils::*;"); (1, EmptyString)])
            (closed fw)).
Proof.
  intros Hclosed. destruct fw as [fn buf cl]. simpl in Hclosed. subst fn.
  split; [apply toRustCrateName_chars|]. split.
  - cbn [visit]. unfold visitModelManager, bind.
    cbn [openFile fileName closed].
    rewrite (emits_forEach_writeLine 0
               (fun ns => "pub mod " ++ toValidRustName ns ++ ";") namespaces
               (mkFileWriter (Some "lib.rs") [] cl) "lib.rs" eq_refl).
    cbn [writeLine closeFile fileName buffer closed app].
    rewrite addUtilsModelFile_run by reflexivity.
    cbn [closed]. now rewrite <- app_assoc.
  - cbn [visit]. unfold visitModelFile. cbv zeta. unfold bind at 1 2 3 4 5 6 7.
    cbn [openFile writeLine fileName buffer closed app].
    rewrite (emits_forEach_writeLine 0
               (fun ns => "use crate::" ++ toValidRustName ns ++ "::*;") _
               (mkFileWriter (Some (toValidRustName namespace ++ ".rs")) _ cl)
               _ eq_refl).
    cbn [writeLine fileName buffer closed].
    repeat rewrite <- app_assoc. reflexivity.
Qed.

End Claims.

(** ** The recursion detector *)

Module RecursionDetectionFacts.
Import RecursionDetection.

Section Graph.

Variable g : classGraph.

Lemma resolve_In_keys (x : string) :
  resolve g x <> None -> In x (map fst g).
Proof.
  induction g as [|[c props] rest IH]; simpl; [congruence|].
  destruct (String.eqb_spec x c) as [->|_]; [now left | intros H; right; now apply IH].
Qed.

(** A duplicate-free list of class names is no longer than the model. *)
Lemma path_length_bound (l : list string) :
  NoDup l -> (forall x, In x l -> resolve g x <> None) -> List.length l <= List.length g.
Proof.
  intros Hnd Hres. rewrite <- (length_map fst g).
  apply NoDup_incl_length; [exact Hnd|].
  intros x Hx. now apply resolve_In_keys, Hres.
Qed.

Lemma walk_clos_trans (via : list string) :
  forall a b, walk g a via b -> clos_trans string (edge g) a b.
Proof.
  induction via as [|t rest IH]; intros a b; simpl.
  - now apply t_step.
  - intros [He Hw]. eapply t_trans; [apply t_step; exact He | now apply IH].
Qed.

Lemma clos_trans_walk (a b : string) :
  clos_trans string (edge g) a b -> exists via, walk g a via b.
Proof.
  intros H. apply clos_trans_t1n in H.
  induction H as [x y He | x y z He _ [via Hw]].
  - now exists [].
  - exists (y :: via). now split.
Qed.

(** The part of a walk after one of its intermediate nodes. *)
Lemma walk_suffix (l1 l2 : list string) (t : string) :
  forall a b, walk g a (l1 ++ t :: l2) b -> walk g t l2 b.
Proof.
  induction l1 as [|x l1 IH]; intros a b; simpl.
  - now intros [_ Hw].
  - intros [_ Hw]. now apply (IH x).
Qed.

Lemma walk_source_resolves (via : list string) (a b : string) :
  walk g a via b -> resolve g a <> None.
Proof.
  destruct via; simpl; [|intros [H _]; revert H]; intros [props [Hr _]]; congruence.
Qed.

(** Soundness: a [true] answer comes with a walk back to the origin. *)
Lemma visit_sound (fuel : nat) (origin : string) :
  forall stack decl,
    visitClassDeclaration g fuel origin stack decl = true ->
    exists via, walk g decl via origin.
Proof.
  induction fuel as [|fuel IH]; intros stack decl; [discriminate|].
  cbn [visitClassDeclaration].
  destruct (resolve g decl) as [props|] eqn:Hdecl; [|discriminate].
  intros H. apply existsb_exists in H as [ty [Hin Hty]].
  destruct (resolve g ty) as [tprops|] eqn:Hres; [|discriminate].
  assert (He : edge g decl ty).
  { exists props. repeat split; [assumption..|congruence]. }
  destruct (JS.array_includes (decl :: stack) ty).
  - apply String.eqb_eq in Hty. subst ty. now exists [].
  - apply IH in Hty as [via Hw]. exists (ty :: via). now split.
Qed.

(** On a duplicate-free stack of classes some fuel is left. *)
Lemma fuel_left (fuel : nat) (stack : list string) (decl : string) :
  NoDup (decl :: stack) ->
  (forall x, In x (decl :: stack) -> resolve g x <> None) ->
  List.length g <= fuel + List.length stack ->
  exists fuel', fuel = S fuel'.
Proof.
  intros Hnd Hres Hfuel.
  pose proof (path_length_bound _ Hnd Hres) as Hbound. cbn [List.length] in Hbound.
  destruct fuel as [|fuel']; [lia | now exists fuel'].
Qed.

(** A property whose type is the origin, with the origin on the stack. *)
Lemma visit_direct (fuel : nat) (origin : string) (stack : list string) (decl : string) :
  edge g decl origin -> In origin (decl :: stack) ->
  visitClassDeclaration g (S fuel) origin stack decl = true.
Proof.
  intros [props [Hr [Hin Hne]]] Horigin. cbn [visitClassDeclaration]. rewrite Hr.
  apply existsb_exists. exists origin. split; [exact Hin|].
  destruct (resolve g origin); [|congruence].
  apply array_includes_In in Horigin. rewrite Horigin. apply String.eqb_refl.
Qed.

(** Completeness: a walk back to the origin that stays off the stack is
    found, as long as the fuel covers the classes not yet on the stack. *)
Lemma visit_complete (origin : string) (n : nat) :
  forall via fuel stack decl,
    List.length via <= n ->
    walk g decl via origin ->
    (forall x, In x via -> ~ In x (decl :: stack)) ->
    In origin (decl :: stack) ->
    NoDup (decl :: stack) ->
    (forall x, In x stack -> resolve g x <> None) ->
    List.length g <= fuel + List.length stack ->
    visitClassDeclaration g fuel origin stack decl = true.
Proof.
  induction n as [|n IH]; intros via fuel stack decl Hlen Hw Hoff Horigin Hnd Hres Hfuel.
  all: pose proof (walk_source_resolves _ _ _ Hw) as Hdecl.
  all: assert (Hstack : forall x, In x (decl :: stack) -> resolve g x <> None)
         by (intros x [<-|Hx]; [exact Hdecl | now apply Hres]).
  all: destruct (fuel_left fuel stack decl Hnd Hstack Hfuel) as [fuel' ->].
  - destruct via; [|simpl in Hlen; lia]. now apply visit_direct.
  - destruct via as [|t rest]; [now apply visit_direct|].
    destruct (in_dec string_dec t rest) as [Hrep|Hfresh].
    + (* the walk comes back to [t]: cut the loop *)
      apply in_split in Hrep as [l1 [l2 Hsplit]].
      assert (Hw' : walk g decl (t :: l2) origin).
      { destruct Hw as [He Hw]. split; [exact He|].
        rewrite Hsplit in Hw. now apply walk_suffix in Hw. }
      apply (IH (t :: l2)); try assumption.
      * simpl in *. rewrite Hsplit, length_app in Hlen. simpl in Hlen. lia.
      * intros x Hx. apply Hoff. destruct Hx as [<-|Hx]; [now left|].
        right. rewrite Hsplit. apply in_or_app. right. now right.
    + destruct Hw as [He Hw].
      pose proof He as [props [Hr [Hin Hne]]].
      cbn [visitClassDeclaration]. rewrite Hr.
      apply existsb_exists. exists t. split; [exact Hin|].
      destruct (resolve g t); [|congruence].
      assert (Hnot : ~ In t (decl :: stack)) by (apply Hoff; now left).
      destruct (JS.array_includes (decl :: stack) t) eqn:Hinc;
        [apply array_includes_In in Hinc; contradiction|].
      apply (IH rest); try assumption.
      * simpl in Hlen. lia.
      * intros x Hx [<-|Hin']; [contradiction|].
        apply (Hoff x); [now right | exact Hin'].
      * now right.
      * now constructor.
      * simpl. simpl in Hfuel. lia.
Qed.

(** A closed walk can be cut to one that meets its end point only there. *)
Lemma walk_avoiding (d : string) (n : nat) :
  forall via, List.length via <= n -> walk g d via d ->
    exists via', walk g d via' d /\ ~ In d via'.
Proof.
  induction n as [|n IH]; intros via Hlen Hw.
  - destruct via; [|simpl in Hlen; lia]. exists []. now split.
  - destruct (in_dec string_dec d via) as [Hin|Hout]; [|now exists via].
    apply in_split in Hin as [l1 [l2 Hsplit]].
    apply (IH l2).
    + rewrite Hsplit, length_app in Hlen. simpl in Hlen. lia.
    + rewrite Hsplit in Hw. now apply walk_suffix in Hw.
Qed.

End Graph.

End RecursionDetectionFacts.

(** From the empty stack, a [true] answer means a cycle through the origin. *)
Lemma detected_cycle (g : RecursionDetection.classGraph) (decl : string) (fuel : nat) :
  RecursionDetection.visitClassDeclaration g fuel decl [] decl = true ->
  clos_trans string (RecursionDetection.edge g) decl decl.
Proof.
  intros H. apply RecursionDetectionFacts.visit_sound in H as [via Hw].
  now apply RecursionDetectionFacts.walk_clos_trans in Hw.
Qed.

(** From the empty stack, a cycle through the origin is found within a depth
    of the number of classes. *)
Lemma cycle_detected (g : RecursionDetection.classGraph) (decl : string) (fuel : nat) :
  List.length g <= fuel ->
  clos_trans string (RecursionDetection.edge g) decl decl ->
  RecursionDetection.visitClassDeclaration g fuel decl [] decl = true.
Proof.
  intros Hfuel H. apply RecursionDetectionFacts.clos_trans_walk in H as [via Hw].
  apply (RecursionDetectionFacts.walk_avoiding g decl (List.length via) via (le_n _))
    in Hw as [via' [Hw Hout]].
  apply (RecursionDetectionFacts.visit_complete g decl (List.length via') via');
    try assumption.
  - apply le_n.
  - intros x Hx [<-|[]]. contradiction.
  - now left.
  - constructor; [intros [] | constructor].
  - intros x [].
  - simpl. lia.
Qed.

(** Any depth allowance of at least the number of classes gives the same
    answer. *)
Lemma isModelRecursive_fuel (g : RecursionDetection.classGraph) (decl : string)
    (fuel : nat) :
  List.length g <= fuel ->
  RecursionDetection.visitClassDeclaration g fuel decl [] decl = isModelRecursive g decl.
Proof.
  intros Hfuel. unfold isModelRecursive.
  destruct (RecursionDetection.visitClassDeclaration g (S (List.length g)) decl [] decl)
    eqn:Hrec.
  - apply detected_cycle in Hrec. now apply cycle_detected.
  - destruct (RecursionDetection.visitClassDeclaration g fuel decl [] decl) eqn:Hv;
      [|reflexivity].
    apply detected_cycle, (cycle_detected g decl (S (List.length g))) in Hv;
      [congruence | lia].
Qed.

(** C5: [isModelRecursive] answers [true] exactly when the class declaration
    can be reached from itself along properties with a class type, that is,
    when it lies on a cycle.  A cycle met elsewhere on the way and a diamond
    of shared declarations are then both answered [false]. *)
Theorem isModelRecursive_iff_cycle (g : RecursionDetection.classGraph) (decl : string) :
  isModelRecursive g decl = true
  <-> clos_trans string (RecursionDetection.edge g) decl decl.
Proof.
  unfold isModelRecursive. split.
  - apply detected_cycle.
  - apply cycle_detected. lia.
Qed.

(** The cycle A -> B -> C -> A. *)
Example isModelRecursive_cycle :
  isModelRecursive [("A", ["String"; "B"]); ("B", ["C"]); ("C", ["A"])] "A" = true.
Proof. reflexivity. Qed.

(** The diamond A -> B, A -> C, B -> D, C -> D. *)
Example isModelRecursive_diamond :
  map (isModelRecursive [("A", ["B"; "C"]); ("B", ["D"]); ("C", ["D"]); ("D", [])])
    ["A"; "B"; "C"; "D"]
  = [false; false; false; false].
Proof. reflexivity. Qed.

(** A cycle B -> C -> B met on the way from A, which is not on it. *)
Example isModelRecursive_cycle_elsewhere :
  map (isModelRecursive [("A", ["B"]); ("B", ["C"]); ("C", ["B"])]) ["A"; "B"; "C"]
  = [false; true; true].
Proof. reflexivity. Qed.

(** ** The claims at concrete inputs *)

(** The class [Person] with a field, a property named [identifier] and an
    optional relationship. *)
Lemma class_record_layout_witness :
  visit (fun s => s)
    (ClassDeclaration "Person"
       [FieldNode (mkField "firstName" "String" (Some false) (Some false)) None;
        FieldNode (mkField "identifier" "String" (Some false) (Some false)) None;
        RelationshipNode (mkField "employer" "Company" (Some false) (Some true))])
    (mkFileWriter (Some "org_acme.rs") [] [])
  = Returned tt
      (mkFileWriter (Some "org_acme.rs")
         [(0, "#[derive(Debug, Serialize, Deserialize)]");
          (0, "pub struct Person {");
          (1, "#[serde(");
          (2, "rename = " ++ dq ++ "$class" ++ dq ++ ",");
          (1, ")]");
          (1, "pub class: String,");
          (1, EmptyString);
          (1, "#[serde(");
          (2, "rename = " ++ dq ++ "firstName" ++ dq ++ ",");
          (1, ")]");
          (1, "pub first_name: String,");
          (1, EmptyString);
          (1, "#[serde(rename = " ++ dq ++ "employer" ++ dq ++ ")]");
          (1, "pub employer: Option<Company>,");
          (0, "}");
          (0, EmptyString)]
         []).
Proof.
  exact (proj1 (class_record_layout (fun s => s) "Person"
                  [FieldNode (mkField "firstName" "String" (Some false) (Some false)) None;
                   FieldNode (mkField "identifier" "String" (Some false) (Some false)) None;
                   RelationshipNode (mkField "employer" "Company" (Some false) (Some true))]
                  (mkFileWriter (Some "org_acme.rs") [] []) "org_acme.rs"
                  eq_refl eq_refl)).
Defined.

Lemma optional_array_wrapping_witness :
  visitField (mkField "tags" "Long" (Some true) (Some true))
    (mkFileWriter (Some "org_acme.rs") [] [])
  = Returned tt
      (mkFileWriter (Some "org_acme.rs")
         [(1, "#[serde(");
          (2, "rename = " ++ dq ++ "tags" ++ dq ++ ",");
          (2, "skip_serializing_if = " ++ dq ++ "Option::is_none" ++ dq ++ ",");
          (1, ")]");
          (1, "pub tags: Option<Vec<u64>>,")]
         []).
Proof.
  exact (proj1 (optional_array_wrapping (mkField "tags" "Long" (Some true) (Some true))
                  (mkFileWriter (Some "org_acme.rs") [] []) "org_acme.rs"
                  eq_refl eq_refl eq_refl)).
Defined.

Lemma datetime_hooks_witness :
  visitField (mkField "dob" "DateTime" (Some false) (Some true))
    (mkFileWriter (Some "org_acme.rs") [] [])
  = Returned tt
      (mkFileWriter (Some "org_acme.rs")
         [(1, "#[serde(");
          (2, "rename = " ++ dq ++ "dob" ++ dq ++ ",");
          (2, "skip_serializing_if = " ++ dq ++ "Option::is_none" ++ dq ++ ",");
          (2, "serialize_with = " ++ dq ++ "serialize_datetime_option" ++ dq ++ ",");
          (2, "deserialize_with = " ++ dq ++ "deserialize_datetime_option" ++ dq ++ ",");
          (1, ")]");
          (1, "pub dob: Option<DateTime<Utc>>,")]
         [])
  /\ visitField (mkField "created" "DateTime" (Some false) (Some false))
       (mkFileWriter (Some "org_acme.rs") [] [])
     = Returned tt
         (mkFileWriter (Some "org_acme.rs")
            [(1, "#[serde(");
             (2, "rename = " ++ dq ++ "created" ++ dq ++ ",");
             (2, "serialize_with = " ++ dq ++ "serialize_datetime" ++ dq ++ ",");
             (2, "deserialize_with = " ++ dq ++ "deserialize_datetime" ++ dq ++ ",");
             (1, ")]");
             (1, "pub created: DateTime<Utc>,")]
            []).
Proof.
  split.
  - exact (datetime_hooks (mkField "dob" "DateTime" (Some false) (Some true))
             (mkFileWriter (Some "org_acme.rs") [] []) "org_acme.rs" eq_refl eq_refl).
  - exact (datetime_hooks (mkField "created" "DateTime" (Some false) (Some false))
             (mkFileWriter (Some "org_acme.rs") [] []) "org_acme.rs" eq_refl eq_refl).
Defined.

Lemma scalar_declaration_writes_placeholder_witness :
  visit (fun s => s) (ScalarDeclaration "Amount")
    (mkFileWriter (Some "org_acme.rs") [(1, EmptyString)] [])
  = Returned tt
      (mkFileWriter (Some "org_acme.rs")
         [(1, EmptyString); (0, "scalarDeclaration - Amount")] []).
Proof.
  exact (scalar_declaration_writes_placeholder (fun s => s) "Amount"
           (mkFileWriter (Some "org_acme.rs") [(1, EmptyString)] []) "org_acme.rs" eq_refl).
Defined.

(** C8 as stated fails: the lines of the open unit are not the same after the
    visit of a scalar declaration. *)
Lemma scalar_declaration_not_noop :
  exists fw',
    visit (fun s => s) (ScalarDeclaration "Amount")
      (mkFileWriter (Some "org_acme.rs") [] []) = Returned tt fw'
    /\ buffer fw' = [(0, "scalarDeclaration - Amount")]
    /\ buffer fw' <> buffer (mkFileWriter (Some "org_acme.rs") [] []).
Proof.
  eexists. split; [reflexivity|]. split; [reflexivity | discriminate].
Qed.

Lemma unrecognised_node_throws_witness :
  exists typeof inspect,
    Other "number" "42" = Other typeof inspect
    /\ visit (fun s => s) (Other "number" "42") (mkFileWriter None [] [])
       = Threw (Error ("Unrecognised type: " ++ typeof ++ ", value: " ++ inspect)).
Proof.
  exact (unrecognised_node_throws (fun s => s) (Other "number" "42")
           (mkFileWriter None [] [])
           eq_refl eq_refl eq_refl eq_refl eq_refl eq_refl eq_refl eq_refl eq_refl).
Defined.

Lemma member_identifier_and_rename_witness :
  visitField (mkField "$my$Value" "Double" (Some false) (Some false))
    (mkFileWriter (Some "org_acme.rs") [] [])
  = Returned tt
      (mkFileWriter (Some "org_acme.rs")
         [(1, "#[serde(");
          (2, "rename = " ++ dq ++ "$my$Value" ++ dq ++ ",");
          (1, ")]");
          (1, "pub my__value: f64,")]
         []).
Proof.
  exact (proj1 (member_identifier_and_rename
                  (mkField "$my$Value" "Double" (Some false) (Some false))
                  (mkFileWriter (Some "org_acme.rs") [] []) "org_acme.rs" eq_refl)).
Defined.

Lemma namespace_identifiers_witness :
  visit (fun s => s) (ModelManager ["org.acme@1.0.0"] []) (mkFileWriter None [] [])
  = Returned tt
      (mkFileWriter None []
         [("lib.rs", [(0, "pub mod org_acme_1_0_0;"); (0, "pub mod utils;")]);
          ("utils.rs", utilsLines)]).
Proof.
  exact (proj1 (proj2 (namespace_identifiers (fun s => s) ["org.acme@1.0.0"] []
                         "org.acme@1.0.0" [] [] (mkFileWriter None [] []) eq_refl))).
Defined.

(** C4 as stated fails: for the namespace [org.Acme@1.0.0] the module line of
    the manifest and the name of the namespace file are not the ones
    [toRustCrateName] would give. *)
Lemma namespace_rule_not_used :
  visit (fun s => s) (ModelManager ["org.Acme@1.0.0"] []) (mkFileWriter None [] [])
  = Returned tt
      (mkFileWriter None []
         [("lib.rs", [(0, "pub mod org__acme_1_0_0;"); (0, "pub mod utils;")]);
          ("utils.rs", utilsLines)])
  /\ "pub mod org__acme_1_0_0;" <> "pub mod " ++ toRustCrateName "org.Acme@1.0.0" ++ ";"
  /\ visit (fun s => s) (ModelFile "org.Acme@1.0.0" [] []) (mkFileWriter None [] [])
     = Returned tt
         (mkFileWriter None []
            [("org__acme_1_0_0.rs",
              [(0, "use serde::{ Deserialize, Serialize };");
               (0, "use chrono::{ DateTime, TimeZone, Utc };");
               (1, EmptyString);
               (0, "use crate::utils::*;");
               (1, EmptyString)])])
  /\ "org__acme_1_0_0.rs" <> toRustCrateName "org.Acme@1.0.0" ++ ".rs".
Proof.
  split; [reflexivity|]. split; [discriminate|]. split; [reflexivity | discriminate].
Qed.

(** ** Further properties of the sanitizer *)

(** The result of steps 1 and 2: invalid characters replaced, snake case. *)
Lemma sanitizer_shape (input : string) :
  let snake :=
    JS.replace_upper (fun m offset => if Nat.eqb offset 0 then JS.toLowerCase m
                                      else "_" ++ JS.toLowerCase m) 0
      (JS.from_join (fun c => if JS.includes validChars c then c else "_") input) in
  toValidRustName input
  = if JS.array_includes keywords snake then snake ++ "_" else snake.
Proof.
  cbv zeta. rewrite prepend_guard_never_fires. apply keyword_loop_result.
Qed.

(** Every keyword gets one underscore appended. *)
Lemma toValidRustName_keyword (k : string) :
  In k keywords -> toValidRustName k = k ++ "_".
Proof.
  intros Hin.
  assert (H : forallb (fun k => String.eqb (toValidRustName k) (k ++ "_")) keywords = true)
    by reflexivity.
  rewrite forallb_forall in H. now apply String.eqb_eq, H.
Qed.

Lemma toValidRustName_keyword_witness : toValidRustName "type" = "type_".
Proof. apply toValidRustName_keyword. simpl. tauto. Defined.

Lemma toValidRustName_fixed_witness : toValidRustName "first_name" = "first_name".
Proof. apply toValidRustName_fixed; reflexivity. Defined.






Lemma valid_char_step1 (c : ascii) :
  (if JS.includes validChars (String c EmptyString) then String c EmptyString else "_")
  = String (if valid_char c then c else "_"%char) EmptyString.
Proof.
  destruct c as [[] [] [] [] [] [] [] []]; vm_compute; reflexivity.
Qed.

Lemma lowerChar_not_upper (c : ascii) : JS.isUpper c = false -> JS.lowerChar c = c.
Proof. unfold JS.lowerChar. now intros ->. Qed.

(** The first character of the result is the first character of the input in
    lower case, or an underscore if that character is not valid. *)
Lemma toValidRustName_first_char (c : ascii) (rest : string) :
  exists tail,
    toValidRustName (String c rest)
    = String (if valid_char c then JS.lowerChar c else "_"%char) tail.
Proof.
  rewrite sanitizer_shape. cbv zeta. cbn [JS.from_join]. rewrite valid_char_step1.
  cbn [append JS.replace_upper].
  set (c0 := if valid_char c then c else "_"%char).
  assert (Hc0 : (if valid_char c then JS.lowerChar c else "_"%char) = JS.lowerChar c0).
  { unfold c0. destruct (valid_char c); reflexivity. }
  rewrite Hc0.
  destruct (JS.isUpper c0) eqn:Hu.
  - cbn [Nat.eqb JS.toLowerCase append].
    destruct (JS.array_includes keywords _); cbn [append]; eexists; reflexivity.
  - rewrite (lowerChar_not_upper c0 Hu).
    destruct (JS.array_includes keywords _); cbn [append]; eexists; reflexivity.
Qed.

(** *** The crate name of a namespace *)

Lemma map_chars_length (f : ascii -> ascii) (s : string) :
  String.length (map_chars f s) = String.length s.
Proof. induction s as [|c s IH]; simpl; [reflexivity | now rewrite IH]. Qed.

Lemma string_forall_map_chars (p : ascii -> bool) (f : ascii -> ascii) (s : string) :
  (forall c, p (f c) = true) -> string_forall p (map_chars f s) = true.
Proof.
  intros H. induction s as [|c s IH]; simpl; [reflexivity | now rewrite H, IH].
Qed.

Lemma map_chars_fixed (f : ascii -> ascii) (p : ascii -> bool) (s : string) :
  (forall c, p c = true -> f c = c) -> string_forall p s = true -> map_chars f s = s.
Proof.
  intros H. induction s as [|c s IH]; simpl; [reflexivity|].
  intros Hs. apply andb_true_iff in Hs as [Hc Hs]. now rewrite (H c Hc), (IH Hs).
Qed.

(** [toRustCrateName] keeps the length of the namespace, leaves no [@] and
    no [.] in it, and applied again changes nothing. *)
Lemma toRustCrateName_properties (namespace : string) :
  String.length (toRustCrateName namespace) = String.length namespace
  /\ string_forall (fun c => negb (Ascii.eqb c "@" || Ascii.eqb c "."))
       (toRustCrateName namespace) = true
  /\ toRustCrateName (toRustCrateName namespace) = toRustCrateName namespace.
Proof.
  assert (Hclean : string_forall (fun c => negb (Ascii.eqb c "@" || Ascii.eqb c "."))
                     (toRustCrateName namespace) = true).
  { rewrite toRustCrateName_chars. apply string_forall_map_chars.
    intros c. destruct (Ascii.eqb c "@") eqn:E1; [reflexivity|].
    destruct (Ascii.eqb c ".") eqn:E2; [reflexivity|].
    cbn [orb]. now rewrite E1, E2. }
  split; [|split; [exact Hclean|]].
  - rewrite toRustCrateName_chars. apply map_chars_length.
  - rewrite (toRustCrateName_chars (toRustCrateName namespace)).
    refine (map_chars_fixed _ _ _ _ Hclean).
    intros c Hc. apply negb_true_iff in Hc. now rewrite Hc.
Qed.

Lemma namespace_char_step1 (c : ascii) :
  snake_char c || Ascii.eqb c "@" || Ascii.eqb c "." = true ->
  (if valid_char c then c else "_"%char)
  = (if Ascii.eqb c "@" || Ascii.eqb c "." then "_"%char else c)
  /\ snake_char (if Ascii.eqb c "@" || Ascii.eqb c "." then "_"%char else c) = true.
Proof.
  destruct c as [[] [] [] [] [] [] [] []]; vm_compute; intros H;
    try discriminate; split; reflexivity.
Qed.

Lemma namespace_step1 (namespace : string) :
  string_forall (fun c => snake_char c || Ascii.eqb c "@" || Ascii.eqb c ".") namespace
  = true ->
  JS.from_join (fun c => if JS.includes validChars c then c else "_") namespace
  = toRustCrateName namespace
  /\ string_forall snake_char (toRustCrateName namespace) = true.
Proof.
  rewrite toRustCrateName_chars.
  induction namespace as [|c ns IH]; [now split|].
  cbn [string_forall JS.from_join map_chars]. intros H.
  apply andb_true_iff in H as [Hc Hns]. destruct (IH Hns) as [IH1 IH2].
  destruct (namespace_char_step1 c Hc) as [Hc1 Hc2].
  rewrite valid_char_step1, Hc1, IH1, Hc2, IH2. now split.
Qed.

(** On a namespace of lower-case letters, digits, [_], [@] and [.] whose
    crate name is no keyword the sanitizer and [toRustCrateName] agree. *)
Lemma crate_name_agreement (namespace : string) :
  string_forall (fun c => snake_char c || Ascii.eqb c "@" || Ascii.eqb c ".") namespace
  = true ->
  JS.array_includes keywords (toRustCrateName namespace) = false ->
  toValidRustName namespace = toRustCrateName namespace.
Proof.
  intros Hchars Hkw. destruct (namespace_step1 namespace Hchars) as [H1 Hsnake].
  rewrite sanitizer_shape. cbv zeta.
  now rewrite H1, (step2_identity _ _ 0 Hsnake), Hkw.
Qed.

Lemma crate_name_agreement_witness :
  toValidRustName "org.acme@1.0.0" = toRustCrateName "org.acme@1.0.0".
Proof. apply crate_name_agreement; reflexivity. Defined.

(** *** The type table *)

(** No result of [toRustType] is one of the four mapped names: mapping a
    mapped type again changes nothing. *)
Lemma toRustType_idempotent (ty : string) :
  toRustType (toRustType ty) = toRustType ty.
Proof.
  unfold toRustType.
  destruct (String.eqb ty "DateTime") eqn:E1; [reflexivity|].
  destruct (String.eqb ty "Boolean") eqn:E2; [reflexivity|].
  destruct (String.eqb ty "Long") eqn:E3; [reflexivity|].
  destruct (String.eqb ty "Double") eqn:E4; [reflexivity|].
  now rewrite E1, E2, E3, E4.
Qed.

(** ** Whole units *)

Section WholeUnits.

Lemma closes_closeFile : closes closeFile [].
Proof.
  intros [fn buf cl] file H. simpl in H. subst. unfold closeFile. cbn [fileName buffer closed].
  now rewrite app_nil_r.
Qed.

Lemma closes_bind (m k : M unit) (l1 l2 : list line) :
  emits m l1 -> closes k l2 -> closes (m ;; k) (l1 ++ l2).
Proof.
  intros Hm Hk fw file H. unfold bind. rewrite (Hm fw file H).
  rewrite (Hk (mkFileWriter (Some file) (buffer fw ++ l1) (closed fw)) file eq_refl).
  cbn [buffer closed]. now rewrite app_assoc.
Qed.

(** Opening a unit needs no empty buffer: [openFile] starts a fresh one. *)
Lemma opens_unit (unitName : string) (k : M unit) (ls : list line) (fw : FileWriter) :
  closes k ls -> fileName fw = None ->
  (openFile unitName ;; k) fw
  = Returned tt (mkFileWriter None [] (closed fw ++ [(unitName, ls)])).
Proof.
  intros Hk H. destruct fw as [fn buf cl]. simpl in H. subst fn. unfold bind, openFile.
  cbn [fileName closed].
  rewrite (Hk (mkFileWriter (Some unitName) [] cl) unitName eq_refl). reflexivity.
Qed.

Lemma writes_unit (unitName : string) (k : M unit) (ls : list line) :
  closes k ls -> writes (openFile unitName ;; k) [(unitName, ls)].
Proof. intros Hk fw H _. now apply opens_unit. Qed.

Lemma writes_ret : writes (ret tt) [].
Proof.
  intros [fn buf cl] H Hb. simpl in H, Hb. subst. unfold ret. now rewrite app_nil_r.
Qed.

Lemma writes_bind (m k : M unit) (u1 u2 : list (string * list line)) :
  writes m u1 -> writes k u2 -> writes (m ;; k) (u1 ++ u2).
Proof.
  intros Hm Hk fw H Hb. unfold bind. rewrite (Hm fw H Hb).
  rewrite (Hk (mkFileWriter None [] (closed fw ++ u1)) eq_refl eq_refl).
  cbn [closed]. now rewrite app_assoc.
Qed.

Lemma writes_forEach {A : Type} (f : A -> M unit) (u : A -> string * list line)
    (l : list A) :
  (forall x, In x l -> writes (f x) [u x]) -> writes (forEach f l) (map u l).
Proof.
  induction l as [|x l IH]; intros H; [apply writes_ret|].
  cbn [forEach map]. apply (writes_bind _ _ [_] _).
  - apply H. now left.
  - apply IH. intros y Hy. apply H. now right.
Qed.

Lemma writes_addUtilsModelFile : writes addUtilsModelFile [("utils.rs", utilsLines)].
Proof. intros fw H _. now apply addUtilsModelFile_run. Qed.

Lemma flat_map_singleton {A B : Type} (h : A -> B) (l : list A) :
  flat_map (fun x => [h x]) l = map h l.
Proof. induction l as [|x l IH]; simpl; [reflexivity | now rewrite IH]. Qed.

Variable getNamespace : string -> string.

Lemma visit_enum_value_emits (property : thing) :
  isEnumValue property = true ->
  emits (visit getNamespace property) (enumValueLines property).
Proof.
  destruct property; try discriminate. intros _. apply emits_writeLine.
Qed.

Lemma visitEnumDeclaration_emits (declName : string) (ownProperties : list thing) :
  forallb isEnumValue ownProperties = true ->
  emits (visit getNamespace (EnumDeclaration declName ownProperties))
    (enumLines declName ownProperties).
Proof.
  intros H. cbn [visit]. unfold visitEnumDeclaration, enumLines.
  apply (emits_bind _ _ [_] _ (emits_writeLine _ _)).
  apply (emits_bind _ _ [_] _ (emits_writeLine _ _)).
  apply emits_bind; [|apply emits_writeLine].
  apply emits_forEach. intros p Hp. apply visit_enum_value_emits.
  rewrite forallb_forall in H. now apply H.
Qed.

Lemma visit_declaration_emits (declaration : thing) :
  isWellFormedDeclaration declaration = true ->
  emits (visit getNamespace declaration) (declarationLines declaration).
Proof.
  destruct declaration as [| |n ps|n ps| | |n| |]; try discriminate; cbn [isWellFormedDeclaration].
  - apply visitEnumDeclaration_emits.
  - intros H. rewrite visit_ClassDeclaration.
    apply visitClassDeclaration_emits. intros p Hp. apply visit_member_emits.
    apply filter_In in Hp as [Hp _]. rewrite forallb_forall in H. now apply H.
  - intros _. apply emits_writeLine.
Qed.

Lemma model_file_body_closes (namespace : string) (imports : list string)
    (declarations : list thing) :
  forallb isWellFormedDeclaration declarations = true ->
  closes
    (writeLine 0 "use serde::{ Deserialize, Serialize };" ;;
     writeLine 0 "use chrono::{ DateTime, TimeZone, Utc };" ;;
     writeLine 1 EmptyString ;;
     forEach (fun ns => writeLine 0 ("use crate::" ++ toValidRustName ns ++ "::*;"))
       (first_occurrences []
          (filter (fun ns => negb (String.eqb ns namespace)) (map getNamespace imports))) ;;
     writeLine 0 "use crate::utils::*;" ;;
     writeLine 1 EmptyString ;;
     forEach (visit getNamespace) declarations ;;
     closeFile)
    (modelFileLines getNamespace namespace imports declarations).
Proof.
  intros H. unfold modelFileLines, importedNamespaces.
  apply (closes_bind _ _ [_] _ (emits_writeLine _ _)).
  apply (closes_bind _ _ [_] _ (emits_writeLine _ _)).
  apply (closes_bind _ _ [_] _ (emits_writeLine _ _)).
  apply closes_bind; [apply (emits_forEach_writeLine 0
                               (fun ns => "use crate::" ++ toValidRustName ns ++ "::*;"))|].
  apply (closes_bind _ _ [_] _ (emits_writeLine _ _)).
  apply (closes_bind _ _ [_] _ (emits_writeLine _ _)).
  rewrite <- (app_nil_r (flat_map declarationLines declarations)).
  apply closes_bind; [|apply closes_closeFile].
  apply emits_forEach. intros d Hd. apply visit_declaration_emits.
  rewrite forallb_forall in H. now apply H.
Qed.

Lemma visit_model_file_writes (modelFile : thing) :
  isWellFormedModelFile modelFile = true ->
  writes (visit getNamespace modelFile) [modelFileUnit getNamespace modelFile].
Proof.
  destruct modelFile as [|ns imps decls| | | | | | |]; try discriminate.
  cbn [isWellFormedModelFile]. intros H.
  cbn [visit modelFileUnit]. unfold visitModelFile. cbv zeta.
  apply writes_unit. now apply model_file_body_closes.
Qed.

Lemma visit_model_manager_run (namespaces : list string) (modelFiles : list thing)
    (fw : FileWriter) :
  forallb isWellFormedModelFile modelFiles = true ->
  fileName fw = None ->
  visit getNamespace (ModelManager namespaces modelFiles) fw
  = Returned tt
      (mkFileWriter None []
         (closed fw
          ++ ("lib.rs", manifestLines namespaces) :: ("utils.rs", utilsLines)
             :: map (modelFileUnit getNamespace) modelFiles)).
Proof.
  intros H Hfw. cbn [visit]. unfold visitModelManager.
  assert (Hlib : (openFile "lib.rs" ;;
                  forEach (fun namespace =>
                             let namespaceFileName := toValidRustName namespace in
                             writeLine 0 ("pub mod " ++ namespaceFileName ++ ";"))
                    namespaces ;;
                  writeLine 0 "pub mod utils;" ;; closeFile) fw
                 = Returned tt
                     (mkFileWriter None []
                        (closed fw ++ [("lib.rs", manifestLines namespaces)]))).
  { apply opens_unit; [|exact Hfw]. unfold manifestLines.
    apply closes_bind; [apply (emits_forEach_writeLine 0
                                 (fun ns => "pub mod " ++ toValidRustName ns ++ ";"))|].
    rewrite <- (app_nil_r [_]).
    apply (closes_bind _ _ [_] _ (emits_writeLine _ _)), closes_closeFile. }
  unfold bind in Hlib |- *.
  destruct (openFile "lib.rs" fw) as [e|[] fw1]; [discriminate|].
  destruct (forEach _ namespaces fw1) as [e|[] fw2]; [discriminate|].
  destruct (writeLine 0 "pub mod utils;" fw2) as [e|[] fw3]; [discriminate|].
  rewrite Hlib.
  rewrite (writes_addUtilsModelFile
             (mkFileWriter None [] (closed fw ++ [("lib.rs", manifestLines namespaces)]))
             eq_refl eq_refl).
  cbn [closed].
  rewrite (writes_forEach (visit getNamespace) (modelFileUnit getNamespace) modelFiles
             (fun mf Hmf => visit_model_file_writes mf
                              (proj1 (forallb_forall _ _) H mf Hmf))
             (mkFileWriter None [] _) eq_refl eq_refl).
  cbn [closed]. now rewrite <- !app_assoc.
Qed.

End WholeUnits.

(** ** Failures *)

Section Failures.

Lemma throws_bind_left (m k : M unit) (e : error) :
  throws m e -> throws (m ;; k) e.
Proof. intros Hm fw file H. unfold bind. now rewrite (Hm fw file H). Qed.

Lemma throws_bind_right (m k : M unit) (ls : list line) (e : error) :
  emits m ls -> throws k e -> throws (m ;; k) e.
Proof.
  intros Hm Hk fw file H. unfold bind. rewrite (Hm fw file H).
  apply (Hk _ file). reflexivity.
Qed.

Lemma throws_forEach {A : Type} (f : A -> M unit) (g : A -> list line)
    (pre post : list A) (x : A) (e : error) :
  (forall y, In y pre -> emits (f y) (g y)) ->
  throws (f x) e ->
  throws (forEach f (pre ++ x :: post)) e.
Proof.
  intros Hpre Hx. induction pre as [|y pre IH]; cbn [app forEach].
  - now apply throws_bind_left.
  - apply (throws_bind_right _ _ (g y)).
    + apply Hpre. now left.
    + apply IH. intros z Hz. apply Hpre. now right.
Qed.

Lemma aborts_unit (unitName : string) (k : M unit) (e : error) :
  throws k e -> aborts (openFile unitName ;; k) e.
Proof.
  intros Hk [fn buf cl] H _. simpl in H. subst fn. unfold bind, openFile.
  cbn [fileName closed]. apply (Hk _ unitName). reflexivity.
Qed.

Lemma aborts_bind_right (m k : M unit) (units : list (string * list line)) (e : error) :
  writes m units -> aborts k e -> aborts (m ;; k) e.
Proof.
  intros Hm Hk fw H Hb. unfold bind. rewrite (Hm fw H Hb). now apply Hk.
Qed.

Lemma aborts_bind_left (m k : M unit) (e : error) :
  aborts m e -> aborts (m ;; k) e.
Proof. intros Hm fw H Hb. unfold bind. now rewrite (Hm fw H Hb). Qed.

Lemma aborts_forEach {A : Type} (f : A -> M unit) (u : A -> string * list line)
    (pre post : list A) (x : A) (e : error) :
  (forall y, In y pre -> writes (f y) [u y]) ->
  aborts (f x) e ->
  aborts (forEach f (pre ++ x :: post)) e.
Proof.
  intros Hpre Hx. induction pre as [|y pre IH]; cbn [app forEach].
  - now apply aborts_bind_left.
  - apply (aborts_bind_right _ _ [u y]).
    + apply Hpre. now left.
    + apply IH. intros z Hz. apply Hpre. now right.
Qed.

Variable getNamespace : string -> string.

Lemma visit_Other_throws (typeof inspect : string) :
  throws (visit getNamespace (Other typeof inspect))
    (Error ("Unrecognised type: " ++ typeof ++ ", value: " ++ inspect)).
Proof. intros fw file _. reflexivity. Qed.

Lemma filter_not_identifier_members (properties : list thing) :
  forall p, In p (filter not_identifier properties) -> In p properties.
Proof. intros p Hp. now apply filter_In in Hp. Qed.


Lemma manager_after_manifest (namespaces : list string) (modelFiles : list thing)
    (fw : FileWriter) :
  fileName fw = None ->
  visit getNamespace (ModelManager namespaces modelFiles) fw
  = forEach (visit getNamespace) modelFiles
      (mkFileWriter None []
         (closed fw ++ [("lib.rs", manifestLines namespaces); ("utils.rs", utilsLines)])).
Proof.
  intros Hfw. destruct fw as [fn buf cl]. simpl in Hfw. subst fn.
  cbn [visit]. unfold visitModelManager, bind.
  cbn [openFile fileName closed].
  rewrite (emits_forEach_writeLine 0
             (fun ns => "pub mod " ++ toValidRustName ns ++ ";") namespaces
             (mkFileWriter (Some "lib.rs") [] cl) "lib.rs" eq_refl).
  cbn [writeLine closeFile fileName buffer closed app].
  rewrite addUtilsModelFile_run by reflexivity.
  cbn [closed]. now rewrite <- app_assoc.
Qed.

Lemma model_file_with_unrecognised_aborts (namespace : string) (imports : list string)
    (pre post : list thing) (typeof inspect : string) :
  forallb isWellFormedDeclaration pre = true ->
  aborts (visit getNamespace
            (ModelFile namespace imports (pre ++ Other typeof inspect :: post)))
    (Error ("Unrecognised type: " ++ typeof ++ ", value: " ++ inspect)).
Proof.
  intros Hpre. cbn [visit]. unfold visitModelFile. cbv zeta.
  apply aborts_unit.
  apply (throws_bind_right _ _ [_] _ (emits_writeLine _ _)).
  apply (throws_bind_right _ _ [_] _ (emits_writeLine _ _)).
  apply (throws_bind_right _ _ [_] _ (emits_writeLine _ _)).
  apply (throws_bind_right _ _ _ _
           (emits_forEach_writeLine 0
              (fun ns => "use crate::" ++ toValidRustName ns ++ "::*;") _)).
  apply (throws_bind_right _ _ [_] _ (emits_writeLine _ _)).
  apply (throws_bind_right _ _ [_] _ (emits_writeLine _ _)).
  apply throws_bind_left.
  apply (throws_forEach _ declarationLines).
  - intros d Hd. apply visit_declaration_emits.
    rewrite forallb_forall in Hpre. now apply Hpre.
  - apply visit_Other_throws.
Qed.

End Failures.

(** ** Imports *)

Lemma first_occurrences_In (a seen : list string) (x : string) :
  In x (first_occurrences seen a) <-> In x a /\ ~ In x seen.
Proof.
  revert seen. induction a as [|v rest IH]; intros seen; cbn [first_occurrences].
  - simpl. tauto.
  - destruct (JS.array_includes seen v) eqn:E.
    + apply array_includes_In in E. rewrite IH. simpl. split.
      * intros [H1 H2]. tauto.
      * intros [[->|H1] H2]; [contradiction | tauto].
    + assert (Hv : ~ In v seen).
      { intros H. apply array_includes_In in H. congruence. }
      simpl. rewrite IH. simpl. split.
      * intros [->|[H1 H2]]; [tauto|]. split; [tauto|]. intros H. apply H2. now right.
      * intros [[->|H1] H2]; [now left|].
        destruct (string_dec v x) as [->|Hne]; [now left|]. right. split; [exact H1|].
        intros [H|H]; [contradiction | contradiction].
Qed.

Lemma first_occurrences_NoDup (a seen : list string) :
  NoDup (first_occurrences seen a).
Proof.
  revert seen. induction a as [|v rest IH]; intros seen; cbn [first_occurrences].
  - constructor.
  - destruct (JS.array_includes seen v); [apply IH|].
    constructor; [|apply IH].
    rewrite first_occurrences_In. intros [_ H]. apply H. now left.
Qed.

Lemma first_occurrences_NoDup_id (a seen : list string) :
  NoDup a -> (forall x, In x a -> ~ In x seen) -> first_occurrences seen a = a.
Proof.
  revert seen. induction a as [|v rest IH]; intros seen Hnd Hseen; [reflexivity|].
  cbn [first_occurrences]. inversion Hnd as [|? ? Hv Hrest]; subst.
  destruct (JS.array_includes seen v) eqn:E.
  - apply array_includes_In in E. exfalso. apply (Hseen v); [now left | exact E].
  - f_equal. apply IH; [exact Hrest|].
    intros x Hx [<-|H]; [contradiction|]. apply (Hseen x); [now right | exact H].
Qed.

(** ** Decorators *)

Section DecoratorFacts.

Context {A : Type}.




End DecoratorFacts.


Section DecoratorFold.

Variable literal : Type.




End DecoratorFold.

(** ** The emitters outside the dispatcher and the earlier revision *)

Section OtherEmitters.

Variable getNamespace : string -> string.

Lemma members_emit (properties : list thing) :
  forallb isMember properties = true ->
  emits (forEach (visit getNamespace) properties) (flat_map memberLines properties).
Proof.
  intros H. apply emits_forEach. intros p Hp. apply visit_member_emits.
  rewrite forallb_forall in H. now apply H.
Qed.

Lemma bind_ext {A B : Type} (m : M A) (k1 k2 : A -> M B) (fw : FileWriter) :
  (forall a fw', k1 a fw' = k2 a fw') -> bind m k1 fw = bind m k2 fw.
Proof. intros H. unfold bind. destruct (m fw); [reflexivity | apply H]. Qed.

Lemma legacy_member_emits (property : thing) :
  isPlainMember property = true ->
  emits (Legacy.visit getNamespace property) (legacyMemberLines property).
Proof.
  destruct property as [| | | |f [g|]|r| | |]; try discriminate; intros _;
    cbn [Legacy.visit legacyMemberLines].
  - apply (emits_bind _ _ [_] [_] (emits_writeLine _ _) (emits_writeLine _ _)).
  - apply (emits_bind _ _ [_] [_] (emits_writeLine _ _) (emits_writeLine _ _)).
Qed.

Lemma legacy_scalar_field_throws (field scalarField : Field) :
  throws (Legacy.visit getNamespace (FieldNode field (Some scalarField)))
    (Error "this.visitScalarField is not a function").
Proof. intros fw file _. reflexivity. Qed.

Lemma legacy_forEach_skips_scalars (declarations : list thing) (fw : FileWriter) :
  forEach (Legacy.visit getNamespace) declarations fw
  = forEach (Legacy.visit getNamespace)
      (filter (fun d => negb (isScalarDeclaration d)) declarations) fw.
Proof.
  revert fw. induction declarations as [|d rest IH]; intros fw; [reflexivity|].
  cbn [filter]. destruct (isScalarDeclaration d) eqn:E; cbn [negb].
  - destruct d; try discriminate. cbn [forEach]. exact (IH fw).
  - cbn [forEach]. apply bind_ext. intros _ fw'. apply IH.
Qed.

Lemma legacy_manager_after_manifest (namespaces : list string) (modelFiles : list thing)
    (fw : FileWriter) :
  fileName fw = None ->
  Legacy.visit getNamespace (ModelManager namespaces modelFiles) fw
  = forEach (Legacy.visit getNamespace) modelFiles
      (mkFileWriter None []
         (closed fw
          ++ [("lib.rs",
               map (fun ns => (0, "pub mod " ++ toValidRustName ns ++ ";")) namespaces)])).
Proof.
  intros Hfw. destruct fw as [fn buf cl]. simpl in Hfw. subst fn.
  cbn [Legacy.visit]. unfold Legacy.visitModelManager, bind.
  cbn [openFile fileName closed].
  rewrite (emits_forEach_writeLine 0
             (fun ns => "pub mod " ++ toValidRustName ns ++ ";") namespaces
             (mkFileWriter (Some "lib.rs") [] cl) "lib.rs" eq_refl).
  cbn [closeFile fileName buffer closed app]. reflexivity.
Qed.

End OtherEmitters.

(** ** Further facts on the recursion detector *)

Lemma self_edge_detected (g : RecursionDetection.classGraph) (decl : string)
    (props : list string) :
  RecursionDetection.resolve g decl = Some props -> In decl props ->
  isModelRecursive g decl = true.
Proof.
  intros Hr Hin. unfold isModelRecursive. apply cycle_detected; [lia|].
  apply t_step. exists props. repeat split; [assumption..|congruence].
Qed.

Lemma detected_has_edge (g : RecursionDetection.classGraph) (decl : string) :
  isModelRecursive g decl = true ->
  exists props ty,
    RecursionDetection.resolve g decl = Some props /\ In ty props
    /\ RecursionDetection.resolve g ty <> None.
Proof.
  intros H. apply detected_cycle, clos_trans_t1n in H.
  assert (G : forall a b, clos_trans_1n string (RecursionDetection.edge g) a b ->
                exists props ty,
                  RecursionDetection.resolve g a = Some props /\ In ty props
                  /\ RecursionDetection.resolve g ty <> None).
  { intros a b Hab.
    destruct Hab as [y [props [Hr [Hin Hne]]] | y z [props [Hr [Hin Hne]]] _];
      now exists props, y. }
  exact (G decl decl H).
Qed.

(** ** Further properties of the code *)

(** X1: whatever the input, the sanitized name consists of lower-case
    letters, digits and underscores only. *)
Theorem sanitized_characters (input : string) :
  string_forall snake_char (toValidRustName input) = true.
Proof. apply toValidRustName_snake. Qed.

(** X2: whatever the input, the sanitized name is not in the keyword list. *)
Theorem sanitized_not_keyword (input : string) :
  JS.array_includes keywords (toValidRustName input) = false.
Proof. apply toValidRustName_not_keyword. Qed.

(** X3: the sanitized name is the snake-case form of steps 1 and 2, with one
    underscore appended exactly when that form is a keyword.  The underscore
    of step 3 is never prepended and the keyword loop runs at most once. *)
Theorem sanitized_shape (input : string) :
  let snake :=
    JS.replace_upper (fun m offset => if Nat.eqb offset 0 then JS.toLowerCase m
                                      else "_" ++ JS.toLowerCase m) 0
      (JS.from_join (fun c => if JS.includes validChars c then c else "_") input) in
  toValidRustName input
  = if JS.array_includes keywords snake then snake ++ "_" else snake.
Proof. apply sanitizer_shape. Qed.

(** X4: a name of lower-case letters, digits and underscores that is no
    keyword is returned unchanged. *)
Theorem sanitized_fixed_point (r : string) :
  string_forall snake_char r = true ->
  JS.array_includes keywords r = false ->
  toValidRustName r = r.
Proof. apply toValidRustName_fixed. Qed.

Lemma sanitized_fixed_point_witness : toValidRustName "order_id2" = "order_id2".
Proof. apply sanitized_fixed_point; reflexivity. Defined.


(** X6: the result starts with the first character of the input, in lower
    case if it is a capital, or with an underscore if that character is not a
    letter, a digit or an underscore. *)
Theorem sanitized_first_character (c : ascii) (rest : string) :
  exists tail,
    toValidRustName (String c rest)
    = String (if valid_char c then JS.lowerChar c else "_"%char) tail.
Proof. apply toValidRustName_first_char. Qed.

(** X7: [toRustCrateName] keeps the length of the namespace, leaves no [@]
    and no [.] in its result, and is idempotent. *)
Theorem crate_name_characters (namespace : string) :
  String.length (toRustCrateName namespace) = String.length namespace
  /\ string_forall (fun c => negb (Ascii.eqb c "@" || Ascii.eqb c "."))
       (toRustCrateName namespace) = true
  /\ toRustCrateName (toRustCrateName namespace) = toRustCrateName namespace.
Proof. apply toRustCrateName_properties. Qed.

(** X8: on a namespace made of lower-case letters, digits, [_], [@] and [.]
    whose crate name is no keyword, the sanitizer used for module and file
    names gives the same string as [toRustCrateName]. *)
Theorem crate_name_matches_sanitizer (namespace : string) :
  string_forall (fun c => snake_char c || Ascii.eqb c "@" || Ascii.eqb c ".") namespace
  = true ->
  JS.array_includes keywords (toRustCrateName namespace) = false ->
  toValidRustName namespace = toRustCrateName namespace.
Proof. apply crate_name_agreement. Qed.

Lemma crate_name_matches_sanitizer_witness :
  toValidRustName "org.accordproject.money@0.3.0"
  = toRustCrateName "org.accordproject.money@0.3.0".
Proof. apply crate_name_matches_sanitizer; reflexivity. Defined.

(** X9: an enumeration is written as the derive line, [pub enum <name> {],
    one line [<value>,] at indentation 1 per value in declaration order, and
    a closing brace followed by a line feed; nothing else changes. *)
Theorem enum_layout (getNamespace : string -> string) (declName : string)
    (values : list string) (fw : FileWriter) (file : string) :
  fileName fw = Some file ->
  visit getNamespace (EnumDeclaration declName (map EnumValueNode values)) fw
  = Returned tt
      (mkFileWriter (Some file)
         (buffer fw
          ++ [(0, "#[derive(Debug, Serialize, Deserialize)]");
              (0, "pub enum " ++ declName ++ " {")]
          ++ map (fun v => (1, v ++ ",")) values
          ++ [(0, "}" ++ newline)])
         (closed fw)).
Proof.
  intros Hopen.
  assert (Hwf : forallb isEnumValue (map EnumValueNode values) = true).
  { apply forallb_forall. intros p Hp. apply in_map_iff in Hp as [v [<- _]]. reflexivity. }
  rewrite (visitEnumDeclaration_emits getNamespace declName _ Hwf fw file Hopen).
  unfold enumLines. rewrite flat_map_concat_map, map_map, <- flat_map_concat_map.
  cbn [enumValueLines]. now rewrite flat_map_singleton.
Qed.

Lemma enum_layout_witness :
  visit (fun s => s) (EnumDeclaration "Color" [EnumValueNode "RED"; EnumValueNode "GREEN"])
    (mkFileWriter (Some "org_acme.rs") [] [])
  = Returned tt
      (mkFileWriter (Some "org_acme.rs")
         [(0, "#[derive(Debug, Serialize, Deserialize)]");
          (0, "pub enum Color {");
          (1, "RED,");
          (1, "GREEN,");
          (0, "}" ++ newline)]
         []).
Proof.
  exact (enum_layout (fun s => s) "Color" ["RED"; "GREEN"]
           (mkFileWriter (Some "org_acme.rs") [] []) "org_acme.rs" eq_refl).
Defined.

(** X10: visiting a model file whose declarations are classes of fields and
    relationships, enumerations of values and scalars, with no unit open,
    succeeds, adds exactly one finished unit named by the sanitized
    namespace with [.rs], holding the fixed header, the import lines and the
    lines of the declarations in order, and leaves no unit open. *)
Theorem model_file_unit (getNamespace : string -> string) (namespace : string)
    (imports : list string) (declarations : list thing) (fw : FileWriter) :
  fileName fw = None ->
  forallb isWellFormedDeclaration declarations = true ->
  visit getNamespace (ModelFile namespace imports declarations) fw
  = Returned tt
      (mkFileWriter None []
         (closed fw
          ++ [(toValidRustName namespace ++ ".rs",
               modelFileLines getNamespace namespace imports declarations)])).
Proof.
  intros Hfw Hwf. cbn [visit]. unfold visitModelFile. cbv zeta.
  apply opens_unit; [|exact Hfw]. now apply model_file_body_closes.
Qed.

Lemma model_file_unit_witness :
  visit (fun s => "org.base")
    (ModelFile "org.acme" ["org.base.Address"; "org.base.Money"]
       [EnumDeclaration "Color" [EnumValueNode "RED"];
        ScalarDeclaration "Amount"])
    (mkFileWriter None [] [])
  = Returned tt
      (mkFileWriter None []
         [("org_acme.rs",
           [(0, "use serde::{ Deserialize, Serialize };");
            (0, "use chrono::{ DateTime, TimeZone, Utc };");
            (1, EmptyString);
            (0, "use crate::org_base::*;");
            (0, "use crate::utils::*;");
            (1, EmptyString);
            (0, "#[derive(Debug, Serialize, Deserialize)]");
            (0, "pub enum Color {");
            (1, "RED,");
            (0, "}" ++ newline);
            (0, "scalarDeclaration - Amount")])]).
Proof.
  exact (model_file_unit (fun s => "org.base") "org.acme"
           ["org.base.Address"; "org.base.Money"]
           [EnumDeclaration "Color" [EnumValueNode "RED"]; ScalarDeclaration "Amount"]
           (mkFileWriter None [] []) eq_refl eq_refl).
Defined.

(** X11: visiting a model manager whose model files are well formed, with no
    unit open, succeeds and adds, in this order, [lib.rs], [utils.rs] and
    one unit per model file; no unit is left open.  The content of
    [utils.rs] does not depend on the model. *)
Theorem generated_units (getNamespace : string -> string) (namespaces : list string)
    (modelFiles : list thing) (fw : FileWriter) :
  fileName fw = None ->
  forallb isWellFormedModelFile modelFiles = true ->
  visit getNamespace (ModelManager namespaces modelFiles) fw
  = Returned tt
      (mkFileWriter None []
         (closed fw
          ++ ("lib.rs", manifestLines namespaces) :: ("utils.rs", utilsLines)
             :: map (modelFileUnit getNamespace) modelFiles)).
Proof. intros Hfw Hwf. now apply visit_model_manager_run. Qed.

Lemma generated_units_witness :
  visit (fun s => s)
    (ModelManager ["org.acme"]
       [ModelFile "org.acme" []
          [ClassDeclaration "Person"
             [FieldNode (mkField "name" "String" (Some false) (Some false)) None]]])
    (mkFileWriter None [] [])
  = Returned tt
      (mkFileWriter None []
         [("lib.rs", [(0, "pub mod org_acme;"); (0, "pub mod utils;")]);
          ("utils.rs", utilsLines);
          ("org_acme.rs",
           [(0, "use serde::{ Deserialize, Serialize };");
            (0, "use chrono::{ DateTime, TimeZone, Utc };");
            (1, EmptyString);
            (0, "use crate::utils::*;");
            (1, EmptyString);
            (0, "#[derive(Debug, Serialize, Deserialize)]");
            (0, "pub struct Person {");
            (1, "#[serde(");
            (2, "rename = " ++ dq ++ "$class" ++ dq ++ ",");
            (1, ")]");
            (1, "pub class: String,");
            (1, EmptyString);
            (1, "#[serde(");
            (2, "rename = " ++ dq ++ "name" ++ dq ++ ",");
            (1, ")]");
            (1, "pub name: String,");
            (0, "}");
            (0, EmptyString)])]).
Proof.
  exact (generated_units (fun s => s) ["org.acme"]
           [ModelFile "org.acme" []
              [ClassDeclaration "Person"
                 [FieldNode (mkField "name" "String" (Some false) (Some false)) None]]]
           (mkFileWriter None [] []) eq_refl eq_refl).
Defined.

(** X12: the namespaces a model file writes import lines for are pairwise
    distinct, never the file's own namespace, and exactly the namespaces of
    its imports other than its own; when those are already distinct their
    order is kept. *)
Theorem imported_namespaces_distinct (getNamespace : string -> string)
    (namespace : string) (imports : list string) :
  NoDup (importedNamespaces getNamespace namespace imports)
  /\ (forall ns, In ns (importedNamespaces getNamespace namespace imports)
                 <-> In ns (map getNamespace imports) /\ ns <> namespace)
  /\ (NoDup (map getNamespace imports) ->
      importedNamespaces getNamespace namespace imports
      = filter (fun ns => negb (String.eqb ns namespace)) (map getNamespace imports)).
Proof.
  unfold importedNamespaces. split; [apply first_occurrences_NoDup|]. split.
  - intros ns. rewrite first_occurrences_In, filter_In, negb_true_iff, String.eqb_neq.
    simpl. tauto.
  - intros Hnd. apply first_occurrences_NoDup_id; [|intros x _ []].
    now apply NoDup_filter.
Qed.

Lemma imported_namespaces_distinct_witness :
  NoDup (importedNamespaces (fun s => String.substring 0 8 s) "org.acme"
           ["org.base.A"; "org.acme.B"; "org.base.C"; "org.util.D"]).
Proof.
  exact (proj1 (imported_namespaces_distinct (fun s => String.substring 0 8 s) "org.acme"
                  ["org.base.A"; "org.acme.B"; "org.base.C"; "org.util.D"])).
Defined.

(** The import lines of a file that imports its own and another namespace
    twice. *)
Example importedNamespaces_example :
  importedNamespaces (fun s => String.substring 0 8 s) "org.acme"
    ["org.base.A"; "org.acme.B"; "org.base.C"; "org.util.D"]
  = ["org.base"; "org.util"].
Proof. reflexivity. Qed.



(** X14: a declaration the dispatcher does not recognise aborts the whole
    run of the model manager with the dispatcher's error, also when the
    model files and declarations before it are well formed. *)
Theorem unrecognised_declaration_aborts_run (getNamespace : string -> string)
    (namespaces : list string) (filesBefore filesAfter : list thing)
    (namespace : string) (imports : list string) (before after : list thing)
    (typeof inspect : string) (fw : FileWriter) :
  fileName fw = None ->
  forallb isWellFormedModelFile filesBefore = true ->
  forallb isWellFormedDeclaration before = true ->
  visit getNamespace
    (ModelManager namespaces
       (filesBefore
        ++ ModelFile namespace imports (before ++ Other typeof inspect :: after)
           :: filesAfter)) fw
  = Threw (Error ("Unrecognised type: " ++ typeof ++ ", value: " ++ inspect)).
Proof.
  intros Hfw Hfiles Hdecls. rewrite manager_after_manifest by exact Hfw.
  apply (aborts_forEach (visit getNamespace) (modelFileUnit getNamespace)); try reflexivity.
  - intros mf Hmf. apply visit_model_file_writes.
    rewrite forallb_forall in Hfiles. now apply Hfiles.
  - now apply model_file_with_unrecognised_aborts.
Qed.

Lemma unrecognised_declaration_aborts_run_witness :
  visit (fun s => s)
    (ModelManager ["org.acme"]
       [ModelFile "org.acme" [] [ScalarDeclaration "Amount"; Other "object" "MapDeclaration {}"]])
    (mkFileWriter None [] [])
  = Threw (Error "Unrecognised type: object, value: MapDeclaration {}").
Proof.
  exact (unrecognised_declaration_aborts_run (fun s => s) ["org.acme"] [] []
           "org.acme" [] [ScalarDeclaration "Amount"] [] "object" "MapDeclaration {}"
           (mkFileWriter None [] []) eq_refl eq_refl eq_refl).
Defined.

(** X15: [getDecorators] returns [null] exactly when the element has no
    decorator list or an empty one. *)
Theorem decorators_null_iff (literal : Type)
    (decorators : option (list (Decorator literal))) :
  getDecorators decorators = None <-> decorators = None \/ decorators = Some [].
Proof.
  unfold getDecorators. destruct decorators as [[|d ds]|]; cbn [List.length Nat.ltb Nat.leb].
  - split; [now right | reflexivity].
  - split; [discriminate | intros [H|H]; discriminate].
  - split; [now left | reflexivity].
Qed.





(** X18: [visitAssetDeclaration] writes [pub struct <name> {], the member of
    every own property in order, a closing brace and an empty line: no
    derive line, no discriminator member, no blank lines between members,
    and a property named [identifier] is not left out. *)
Theorem asset_layout (getNamespace : string -> string) (declName : string)
    (ownProperties : list thing) (fw : FileWriter) (file : string) :
  fileName fw = Some file ->
  forallb isMember ownProperties = true ->
  visitAssetDeclaration (visit getNamespace) declName ownProperties fw
  = Returned tt
      (mkFileWriter (Some file)
         (buffer fw
          ++ [(0, "pub struct " ++ declName ++ " {")]
          ++ flat_map memberLines ownProperties
          ++ [(0, "}"); (0, EmptyString)])
         (closed fw)).
Proof.
  intros Hopen Hmem. unfold visitAssetDeclaration.
  refine (emits_bind _ _ [_] _ (emits_writeLine _ _) _ fw file Hopen).
  apply emits_bind; [now apply members_emit|].
  apply (emits_bind _ _ [_] [_] (emits_writeLine _ _) (emits_writeLine _ _)).
Qed.

Lemma asset_layout_witness :
  visitAssetDeclaration (visit (fun s => s)) "Car"
    [FieldNode (mkField "identifier" "String" (Some false) (Some false)) None]
    (mkFileWriter (Some "org_acme.rs") [] [])
  = Returned tt
      (mkFileWriter (Some "org_acme.rs")
         [(0, "pub struct Car {");
          (1, "#[serde(");
          (2, "rename = " ++ dq ++ "identifier" ++ dq ++ ",");
          (1, ")]");
          (1, "pub identifier: String,");
          (0, "}");
          (0, EmptyString)]
         []).
Proof.
  exact (asset_layout (fun s => s) "Car"
           [FieldNode (mkField "identifier" "String" (Some false) (Some false)) None]
           (mkFileWriter (Some "org_acme.rs") [] []) "org_acme.rs" eq_refl eq_refl).
Defined.

(** X19: [visitTransactionDeclaration] writes the line
    [transactionDeclaration - <name>] and then the member of every own
    property in order, with no closing line. *)
Theorem transaction_layout (getNamespace : string -> string) (declName : string)
    (ownProperties : list thing) (fw : FileWriter) (file : string) :
  fileName fw = Some file ->
  forallb isMember ownProperties = true ->
  visitTransactionDeclaration (visit getNamespace) declName ownProperties fw
  = Returned tt
      (mkFileWriter (Some file)
         (buffer fw
          ++ [(0, "transactionDeclaration - " ++ declName)]
          ++ flat_map memberLines ownProperties)
         (closed fw)).
Proof.
  intros Hopen Hmem. unfold visitTransactionDeclaration.
  refine (emits_bind _ _ [_] _ (emits_writeLine _ _) _ fw file Hopen).
  now apply members_emit.
Qed.

Lemma transaction_layout_witness :
  visitTransactionDeclaration (visit (fun s => s)) "Pay"
    [RelationshipNode (mkField "to" "Person" (Some false) (Some false))]
    (mkFileWriter (Some "org_acme.rs") [] [])
  = Returned tt
      (mkFileWriter (Some "org_acme.rs")
         [(0, "transactionDeclaration - Pay");
          (1, "#[serde(rename = " ++ dq ++ "to" ++ dq ++ ")]");
          (1, "pub to: Person,")]
         []).
Proof.
  exact (transaction_layout (fun s => s) "Pay"
           [RelationshipNode (mkField "to" "Person" (Some false) (Some false))]
           (mkFileWriter (Some "org_acme.rs") [] []) "org_acme.rs" eq_refl eq_refl).
Defined.

(** X20: in the detector modelled from the specification, a class with a
    property of its own type is recursive, as in the example
    [concept Person { o Person[] children }]. *)
Theorem self_reference_is_recursive (g : RecursionDetection.classGraph)
    (decl : string) (props : list string) :
  RecursionDetection.resolve g decl = Some props ->
  In decl props ->
  isModelRecursive g decl = true.
Proof. apply self_edge_detected. Qed.

Lemma self_reference_is_recursive_witness :
  isModelRecursive [("Person", ["String"; "Person"])] "Person" = true.
Proof.
  apply (self_reference_is_recursive _ "Person" ["String"; "Person"]);
    [reflexivity | simpl; tauto].
Defined.

(** X21: in the earlier revision of the visitor a scalar declaration is
    skipped: a model file is written exactly as if its scalar declarations
    were not there. *)
Theorem legacy_scalar_declarations_skipped (getNamespace : string -> string)
    (namespace : string) (imports : list string) (declarations : list thing)
    (fw : FileWriter) :
  Legacy.visit getNamespace (ModelFile namespace imports declarations) fw
  = Legacy.visit getNamespace
      (ModelFile namespace imports
         (filter (fun d => negb (isScalarDeclaration d)) declarations)) fw.
Proof.
  cbn [Legacy.visit]. unfold Legacy.visitModelFile. cbv zeta.
  apply bind_ext. intros _ fw1. apply bind_ext. intros _ fw2.
  apply bind_ext. intros _ fw3. apply bind_ext. intros _ fw4.
  unfold bind. now rewrite legacy_forEach_skips_scalars.
Qed.

(** X22: the earlier revision writes a class as the derive line,
    [pub struct <name>{ ], then for every own property its rename attribute
    and its member, then a closing brace and an empty line.  There is no
    discriminator member; a field type is written as declared; a
    relationship keeps its declared name as identifier and its attribute
    line has no closing bracket. *)
Theorem legacy_class_layout (getNamespace : string -> string) (declName : string)
    (ownProperties : list thing) (fw : FileWriter) (file : string) :
  fileName fw = Some file ->
  forallb isPlainMember ownProperties = true ->
  Legacy.visit getNamespace (ClassDeclaration declName ownProperties) fw
  = Returned tt
      (mkFileWriter (Some file)
         (buffer fw
          ++ [(0, "#[derive(Debug, Serialize, Deserialize)]");
              (0, "pub struct " ++ declName ++ "{ ")]
          ++ flat_map legacyMemberLines ownProperties
          ++ [(0, "}"); (0, EmptyString)])
         (closed fw)).
Proof.
  intros Hopen Hmem. cbn [Legacy.visit]. unfold Legacy.visitClassDeclaration.
  refine (emits_bind _ _ [_] _ (emits_writeLine _ _) _ fw file Hopen).
  apply (emits_bind _ _ [_] _ (emits_writeLine _ _)).
  apply emits_bind.
  - apply emits_forEach. intros p Hp. apply legacy_member_emits.
    rewrite forallb_forall in Hmem. now apply Hmem.
  - apply (emits_bind _ _ [_] [_] (emits_writeLine _ _) (emits_writeLine _ _)).
Qed.

Lemma legacy_class_layout_witness :
  Legacy.visit (fun s => s)
    (ClassDeclaration "Person"
       [FieldNode (mkField "firstName" "DateTime" (Some true) (Some true)) None;
        RelationshipNode (mkField "bestFriend" "Person" (Some false) (Some false))])
    (mkFileWriter (Some "org_acme.rs") [] [])
  = Returned tt
      (mkFileWriter (Some "org_acme.rs")
         [(0, "#[derive(Debug, Serialize, Deserialize)]");
          (0, "pub struct Person{ ");
          (1, "#[serde(rename = " ++ dq ++ "firstName" ++ dq ++ ")]");
          (1, "pub first_name : DateTime,");
          (1, "#[serde(rename = " ++ dq ++ "bestFriend" ++ dq);
          (1, "pub bestFriend : Person,");
          (0, "}");
          (0, EmptyString)]
         []).
Proof.
  exact (legacy_class_layout (fun s => s) "Person"
           [FieldNode (mkField "firstName" "DateTime" (Some true) (Some true)) None;
            RelationshipNode (mkField "bestFriend" "Person" (Some false) (Some false))]
           (mkFileWriter (Some "org_acme.rs") [] []) "org_acme.rs" eq_refl eq_refl).
Defined.

(** X23: in the earlier revision a field whose type is a scalar makes the
    visit of its class throw: the dispatcher calls [visitScalarField], which
    the class does not define. *)
Theorem legacy_scalar_field_aborts_class (getNamespace : string -> string)
    (declName : string) (before after : list thing) (field scalarField : Field)
    (fw : FileWriter) (file : string) :
  fileName fw = Some file ->
  forallb isPlainMember before = true ->
  Legacy.visit getNamespace
    (ClassDeclaration declName (before ++ FieldNode field (Some scalarField) :: after)) fw
  = Threw (Error "this.visitScalarField is not a function").
Proof.
  intros Hopen Hmem. cbn [Legacy.visit]. unfold Legacy.visitClassDeclaration.
  refine (throws_bind_right _ _ [_] _ (emits_writeLine _ _) _ fw file Hopen).
  apply (throws_bind_right _ _ [_] _ (emits_writeLine _ _)).
  apply throws_bind_left.
  apply (throws_forEach _ legacyMemberLines).
  - intros p Hp. apply legacy_member_emits.
    rewrite forallb_forall in Hmem. now apply Hmem.
  - apply legacy_scalar_field_throws.
Qed.

Lemma legacy_scalar_field_aborts_class_witness :
  Legacy.visit (fun s => s)
    (ClassDeclaration "Order"
       [FieldNode (mkField "total" "Amount" (Some false) (Some false))
          (Some (mkField "total" "Double" (Some false) (Some false)))])
    (mkFileWriter (Some "org_acme.rs") [] [])
  = Threw (Error "this.visitScalarField is not a function").
Proof.
  exact (legacy_scalar_field_aborts_class (fun s => s) "Order" [] []
           (mkField "total" "Amount" (Some false) (Some false))
           (mkField "total" "Double" (Some false) (Some false))
           (mkFileWriter (Some "org_acme.rs") [] []) "org_acme.rs" eq_refl eq_refl).
Defined.

(** X24: the earlier revision writes the manifest [lib.rs] with one line
    [pub mod <sanitized namespace>;] per namespace and nothing else, closes
    it, and goes on to the model files: it writes no [utils] module line and
    no [utils.rs]. *)
Theorem legacy_manifest (getNamespace : string -> string) (namespaces : list string)
    (modelFiles : list thing) (fw : FileWriter) :
  fileName fw = None ->
  Legacy.visit getNamespace (ModelManager namespaces modelFiles) fw
  = forEach (Legacy.visit getNamespace) modelFiles
      (mkFileWriter None []
         (closed fw
          ++ [("lib.rs",
               map (fun ns => (0, "pub mod " ++ toValidRustName ns ++ ";")) namespaces)])).
Proof. apply legacy_manager_after_manifest. Qed.

Lemma legacy_manifest_witness :
  Legacy.visit (fun s => s) (ModelManager ["org.acme"; "org.base"] [])
    (mkFileWriter None [] [])
  = Returned tt
      (mkFileWriter None []
         [("lib.rs", [(0, "pub mod org_acme;"); (0, "pub mod org_base;")])]).
Proof.
  exact (legacy_manifest (fun s => s) ["org.acme"; "org.base"] []
           (mkFileWriter None [] []) eq_refl).
Defined.

(** X25: a relationship that is both an array and optional is written with
    the type [Option<Vec<T>>] where [T] is the declared type as it is, also
    when [T] is the name of a primitive; the member has only the rename
    attribute: no skip-if-none line and no date-time hooks. *)
Theorem relationship_wrapping (r : Field) (fw : FileWriter) (file : string) :
  fileName fw = Some file ->
  isArray r = Some true ->
  isOptional r = Some true ->
  visitRelationshipDeclaration r fw
  = Returned tt
      (mkFileWriter (Some file)
         (buffer fw
          ++ [(1, "#[serde(rename = " ++ dq ++ name r ++ dq ++ ")]");
              (1, "pub " ++ toValidRustName (JS.replace_first "$" EmptyString (name r))
                    ++ ": " ++ ("Option<Vec<" ++ type r ++ ">>") ++ ",")])
         (closed fw)).
Proof.
  intros Hopen Harr Hopt.
  rewrite (visitRelationshipDeclaration_emits r fw file Hopen).
  unfold relationshipLines. now rewrite (optional_array_relationship r Harr Hopt).
Qed.

Lemma relationship_wrapping_witness :
  visitRelationshipDeclaration (mkField "stamps" "DateTime" (Some true) (Some true))
    (mkFileWriter (Some "org_acme.rs") [] [])
  = Returned tt
      (mkFileWriter (Some "org_acme.rs")
         [(1, "#[serde(rename = " ++ dq ++ "stamps" ++ dq ++ ")]");
          (1, "pub stamps: Option<Vec<DateTime>>,")]
         []).
Proof.
  exact (relationship_wrapping (mkField "stamps" "DateTime" (Some true) (Some true))
           (mkFileWriter (Some "org_acme.rs") [] []) "org_acme.rs"
           eq_refl eq_refl eq_refl).
Defined.
